(** * The measurement pipeline of benchmark.py

    A shallow embedding of the parsers ([parse_duration_to_seconds],
    [parse_memory_to_mb]), the metrics extractor
    ([get_query_stats_from_api]) and the execution measurer
    ([measure_query_execution]) of the Trino row-pattern benchmark, with
    the CSV row that [run_benchmark] writes for a trial.

    Python values are dynamically typed, so they are embedded as one
    inductive type [pyval]; a Python [float] is an IEEE binary64 number,
    embedded as Rocq's primitive [float]; a Python [int] is a [Z]; a
    [dict] with string keys is a [gmap string pyval].  Exceptions are an
    explicit error monad.  The outside world (the clock, the database
    cursor, the HTTP endpoint) is a record of oracles, and the HTTP
    requests and warnings that the code issues are collected in a trace.

    Strings are sequences of 7-bit ASCII characters: [lower], [upper],
    [strip] and [float] follow Python on code points below 128. *)

From Stdlib Require Import ZArith Floats SpecFloat String Ascii Bool List Lia.
From stdpp Require Import base option list strings gmap fin_maps pretty.

Set Warnings "-register-all,-inexact-float".

Open Scope string_scope.
Open Scope Z_scope.

(** ** Python's [str] methods used by the parsers *)

Module PyStr.

(** [str.isspace] on ASCII: TAB, LF, VT, FF, CR, the separators
    FS, GS, RS, US, and the space. *)
Definition is_space (c : ascii) : bool :=
  let n := N_of_ascii c in
  ((9 <=? n) && (n <=? 13) || (28 <=? n) && (n <=? 32))%N.

Definition lower_char (c : ascii) : ascii :=
  let n := N_of_ascii c in
  if ((65 <=? n) && (n <=? 90))%N then ascii_of_N (n + 32) else c.

Definition upper_char (c : ascii) : ascii :=
  let n := N_of_ascii c in
  if ((97 <=? n) && (n <=? 122))%N then ascii_of_N (n - 32) else c.

Fixpoint map_chars (f : ascii -> ascii) (s : string) : string :=
  match s with
  | EmptyString => EmptyString
  | String c s' => String (f c) (map_chars f s')
  end.

(** [s.lower()] and [s.upper()] *)
Definition lower : string -> string := map_chars lower_char.
Definition upper : string -> string := map_chars upper_char.

Fixpoint lstrip_by (p : ascii -> bool) (s : string) : string :=
  match s with
  | EmptyString => EmptyString
  | String c s' => if p c then lstrip_by p s' else s
  end.

Fixpoint rstrip_by (p : ascii -> bool) (s : string) : string :=
  match s with
  | EmptyString => EmptyString
  | String c s' =>
      match rstrip_by p s' with
      | EmptyString => if p c then EmptyString else String c EmptyString
      | r => String c r
      end
  end.

Definition strip_by (p : ascii -> bool) (s : string) : string :=
  rstrip_by p (lstrip_by p s).

(** [s.strip()] *)
Definition strip (s : string) : string := strip_by is_space s.

(** [s.rstrip(chars)] *)
Definition rstrip (chars : string) (s : string) : string :=
  rstrip_by (fun c => existsb (Ascii.eqb c) (list_ascii_of_string chars)) s.

(** [sub in s] *)
Fixpoint contains (sub s : string) : bool :=
  String.prefix sub s ||
  match s with
  | EmptyString => false
  | String _ s' => contains sub s'
  end.

(** [s.endswith(suf)] *)
Fixpoint endswith (suf s : string) : bool :=
  String.eqb s suf ||
  match s with
  | EmptyString => false
  | String _ s' => endswith suf s'
  end.

(** [s.replace(old, new)] for a non-empty [old]: the occurrences of
    [old] are found from left to right and do not overlap.  [skip]
    counts the characters of a matched occurrence still to be dropped. *)
Fixpoint replace_from (old new : string) (skip : nat) (s : string) : string :=
  match s with
  | EmptyString => EmptyString
  | String c s' =>
      match skip with
      | S k => replace_from old new k s'
      | O =>
          if String.prefix old s
          then new ++ replace_from old new (String.length old - 1) s'
          else String c (replace_from old new O s')
      end
  end.

Definition replace (old new s : string) : string := replace_from old new O s.

End PyStr.

(** ** Exceptions *)

Inductive exn :=
  | ValueError (arg : string)
  | TypeError
  | AttributeError
  | KeyError (key : string)
  | OverflowError
  | ZeroDivisionError
  | RequestException (msg : string).

Inductive result (A : Type) :=
  | Ok (a : A)
  | Raise (e : exn).
Arguments Ok {A} a.
Arguments Raise {A} e.

#[global] Instance result_ret : MRet result := fun A a => Ok a.
#[global] Instance result_bind : MBind result := fun A B k r =>
  match r with
  | Ok a => k a
  | Raise e => Raise e
  end.

(** ** Python's [float]: binary64 *)

Module PyFloat.

(** The double nearest to [m * 10 ^ e] (ties to even), for [m > 0]:
    an exact integer is rounded, an exact quotient of two integers is
    divided with one rounding.  Too large a value gives an infinity,
    as [float("1e999")] does. *)
Definition of_decimal (neg : bool) (m : positive) (e : Z) : float :=
  if 0 <=? e
  then SF2Prim (binary_normalize prec emax
                  (if neg then Z.neg m * 10 ^ e else Z.pos m * 10 ^ e) 0 false)
  else SF2Prim (SFdiv prec emax (S754_finite neg m 0)
                  (S754_finite false (Z.to_pos (10 ^ (- e))) 0)).

Definition signed_zero (neg : bool) : float :=
  if neg then (-0)%float else 0%float.

Definition digit_of (c : ascii) : option Z :=
  let n := N_of_ascii c in
  if ((48 <=? n) && (n <=? 57))%N then Some (Z.of_N n - 48) else None.

Definition starts_with_digit (s : string) : bool :=
  match s with
  | String c _ => bool_decide (is_Some (digit_of c))
  | EmptyString => false
  end.

(** A [digitpart]: digits, with single underscores between two digits.
    Returns the number read after [acc], the count of digits read after
    [cnt], and the rest of the string. *)
Fixpoint scan_digits (prev_digit : bool) (acc : Z) (cnt : Z) (s : string)
  : Z * Z * string :=
  match s with
  | EmptyString => (acc, cnt, s)
  | String c s' =>
      match digit_of c with
      | Some d => scan_digits true (10 * acc + d) (cnt + 1) s'
      | None =>
          if Ascii.eqb c "_" && prev_digit && starts_with_digit s'
          then scan_digits false acc cnt s'
          else (acc, cnt, s)
      end
  end.

Definition scan_sign (s : string) : bool * string :=
  match s with
  | String c s' =>
      if Ascii.eqb c "+" then (false, s')
      else if Ascii.eqb c "-" then (true, s')
      else (false, s)
  | EmptyString => (false, s)
  end.

(** [exponent ::= ("e" | "E") [sign] digitpart], then the end of the
    string.  Returns the exponent, 0 when there is none. *)
Definition scan_exponent (s : string) : option Z :=
  match s with
  | EmptyString => Some 0
  | String c s' =>
      if Ascii.eqb c "e" || Ascii.eqb c "E" then
        let '(neg, s'') := scan_sign s' in
        match scan_digits false 0 0 s'' with
        | (x, cnt, EmptyString) =>
            if 0 <? cnt then Some (if neg then - x else x) else None
        | _ => None
        end
      else None
  end.

(** [floatnumber ::= ([digitpart] "." digitpart | digitpart ["."]) [exponent]]
    as a mantissa and a power of ten. *)
Definition scan_number (s : string) : option (Z * Z) :=
  let '(ip, ni, r1) := scan_digits false 0 0 s in
  let integral := if 0 <? ni then x ← scan_exponent r1; Some (ip, x) else None in
  match r1 with
  | String c r2 =>
      if Ascii.eqb c "." then
        let '(m, nf, r3) := scan_digits false ip 0 r2 in
        if 0 <? ni + nf
        then x ← scan_exponent r3; Some (m, x - nf)
        else None
      else integral
  | EmptyString => integral
  end.

(** The white space of the C locale, which [float] strips from an ASCII
    string: TAB, LF, VT, FF, CR and the space. *)
Definition is_c_space (c : ascii) : bool :=
  let n := N_of_ascii c in
  ((9 <=? n) && (n <=? 13) || (n =? 32))%N.

(** [float(s)] on a string: white space is stripped, then an optional
    sign, then [inf], [infinity] or [nan] in any case, or a decimal
    number.  Anything else raises [ValueError]. *)
Definition of_string (s : string) : result float :=
  let '(neg, body) := scan_sign (PyStr.strip_by is_c_space s) in
  let word := PyStr.lower body in
  if String.eqb word "inf" || String.eqb word "infinity"
  then Ok (if neg then neg_infinity else infinity)
  else if String.eqb word "nan" then Ok nan
  else
    match scan_number body with
    | Some (Z.pos m, e) => Ok (of_decimal neg m e)
    | Some (_, _) => Ok (signed_zero neg)
    | None => Raise (ValueError s)
    end.

(** [float(n)] on an int: the nearest double, or [OverflowError] when the
    nearest double would be beyond the largest finite one. *)
Definition of_int (n : Z) : result float :=
  if 2 ^ 1024 - 2 ^ 970 <=? Z.abs n then Raise OverflowError
  else Ok (SF2Prim (binary_normalize prec emax n 0 false)).

End PyFloat.

(** ** Python values *)

Inductive pyval :=
  | PNone
  | PBool (b : bool)
  | PInt (z : Z)
  | PFloat (f : float)
  | PStr (s : string)
  | PList (l : list pyval)
  | PDict (d : gmap string pyval).

Module Py.

(** Truth value testing: [None], [False], a zero, an empty string and
    an empty container are false.  A NaN is true, [-0.0] is false. *)
Definition truthy (v : pyval) : bool :=
  match v with
  | PNone => false
  | PBool b => b
  | PInt z => negb (z =? 0)
  | PFloat f => negb (f =? 0)%float
  | PStr s => negb (String.eqb s "")
  | PList l => negb (bool_decide (l = []))
  | PDict d => negb (bool_decide (d = ∅))
  end.

(** [a or b] between two values *)
Definition por (a b : pyval) : pyval := if truthy a then a else b.

(** [a or b] where evaluating either side can raise; [b] is reached
    only when [a] is false. *)
Definition or_else (a b : result pyval) : result pyval :=
  x ← a; if truthy x then Ok x else b.

(** [v.get(k, dflt)]: only a dict has the method. *)
Definition get (v : pyval) (k : string) (dflt : pyval) : result pyval :=
  match v with
  | PDict d => Ok (default dflt (d !! k))
  | _ => Raise AttributeError
  end.

Definition is_str (k : string) (v : pyval) : bool :=
  match v with
  | PStr s => String.eqb s k
  | _ => false
  end.

(** [k in v] for a string [k]: a key of a dict, an element of a list, a
    substring of a string; other values are not iterable. *)
Definition contains (k : string) (v : pyval) : result bool :=
  match v with
  | PDict d => Ok (bool_decide (is_Some (d !! k)))
  | PList l => Ok (existsb (is_str k) l)
  | PStr s => Ok (PyStr.contains k s)
  | _ => Raise TypeError
  end.

(** [v[k]] for a string [k] *)
Definition item (v : pyval) (k : string) : result pyval :=
  match v with
  | PDict d =>
      match d !! k with
      | Some x => Ok x
      | None => Raise (KeyError k)
      end
  | _ => Raise TypeError
  end.

(** [v > 0] *)
Definition gt_zero (v : pyval) : result bool :=
  match v with
  | PBool b => Ok b
  | PInt z => Ok (0 <? z)
  | PFloat f => Ok (0 <? f)%float
  | _ => Raise TypeError
  end.

(** [v == 0] *)
Definition eq_zero (v : pyval) : bool :=
  match v with
  | PBool b => negb b
  | PInt z => z =? 0
  | PFloat f => (f =? 0)%float
  | _ => false
  end.

Definition as_int (v : pyval) : option Z :=
  match v with
  | PBool b => Some (if b then 1 else 0)
  | PInt z => Some z
  | _ => None
  end.

Definition to_float (v : pyval) : result float :=
  match v with
  | PFloat f => Ok f
  | _ =>
      match as_int v with
      | Some z => PyFloat.of_int z
      | None => Raise TypeError
      end
  end.

(** [a / b] between two ints: the double nearest to the quotient. *)
Definition int_truediv (a b : Z) : result pyval :=
  match a, b with
  | _, 0 => Raise ZeroDivisionError
  | 0, _ => Ok (PFloat (PyFloat.signed_zero (b <? 0)))
  | _, _ =>
      let q := SF2Prim (SFdiv prec emax
                          (S754_finite (a <? 0) (Z.to_pos (Z.abs a)) 0)
                          (S754_finite (b <? 0) (Z.to_pos (Z.abs b)) 0)) in
      if is_infinity q then Raise OverflowError else Ok (PFloat q)
  end.

(** [a / b] *)
Definition truediv (a b : pyval) : result pyval :=
  match as_int a, as_int b with
  | Some x, Some y => int_truediv x y
  | _, _ =>
      fa ← to_float a;
      fb ← to_float b;
      if (fb =? 0)%float then Raise ZeroDivisionError
      else Ok (PFloat (fa / fb))
  end.

End Py.

Infix "|||" := Py.or_else (at level 50, left associativity).

(** ** Configuration, oracles and trace *)

Record config := {
  host : string;
  port : Z;
  user : string
}.

(** What [requests.get] does for a URL: it raises a [RequestException],
    or there is a response with a status code, whose [json()] gives a
    value or raises. *)
Inductive http_reply :=
  | NetworkError (msg : string)
  | Reply (status_code : Z) (json : result pyval).

(** What the cursor does for a statement.  [handle] is what
    [cursor._query.query_id] holds, [None] when the attribute is missing. *)
Inductive cursor_run :=
  | ExecuteFails (msg : string)
  | FetchFails (handle : option pyval) (msg : string)
  | Fetched (handle : option pyval) (rows : nat).

Inductive warning :=
  | WarnAuthentication
  | WarnStatus (status_code : Z)
  | WarnRequestFailed (e : exn)
  | WarnParsing (e : exn).

Inductive event :=
  | HttpGet (url : string) (x_trino_user : string) (timeout : Z)
  | Print (w : warning).

Record trial := {
  runtime_sec : pyval;
  client_runtime_sec : pyval;
  rows_returned : pyval;
  input_rows_processed : pyval;
  throughput_input_rows_per_sec : pyval;
  cpu_seconds : pyval;
  peak_memory_mb : pyval;
  status : pyval;
  query_id : pyval;
  stats_source : pyval;
  server_stats : gmap string pyval
}.

Definition of_option_int (o : option Z) : pyval :=
  match o with
  | Some n => PInt n
  | None => PNone
  end.

Section Pipeline.

(** [str(v)] of a float, a list or a dict is the interpreter's [repr];
    the development holds for any such function. *)
Variable repr : pyval -> string.

(** The module-level [TRINO_CONFIG] *)
Variable TRINO_CONFIG : config.

(** The network *)
Variable requests_get : string -> http_reply.

(** The clock readings before and after the execution, and the cursor *)
Variable start_time end_time : float.
Variable cursor : string -> cursor_run.

(** [str(v)] *)
Definition str (v : pyval) : string :=
  match v with
  | PStr s => s
  | PNone => "None"
  | PBool b => if b then "True" else "False"
  | PInt z => pretty z
  | _ => repr v
  end.

Definition parse_duration_to_seconds (duration_str : pyval) : result pyval :=
  if negb (Py.truthy duration_str) then Ok (PInt 0)
  else
    let duration_str := PyStr.strip (PyStr.lower (str duration_str)) in
    if PyStr.contains "ns" duration_str then
      x ← PyFloat.of_string (PyStr.replace "ns" "" duration_str);
      Ok (PFloat (x / 1000000000))
    else if PyStr.endswith "n" duration_str then
      x ← PyFloat.of_string (PyStr.rstrip "n" duration_str);
      Ok (PFloat (x / 1000000000))
    else if PyStr.contains "ms" duration_str then
      x ← PyFloat.of_string (PyStr.replace "ms" "" duration_str);
      Ok (PFloat (x / 1000))
    else if PyStr.contains "us" duration_str then
      x ← PyFloat.of_string (PyStr.replace "us" "" duration_str);
      Ok (PFloat (x / 1000000))
    else if PyStr.contains "s" duration_str then
      x ← PyFloat.of_string (PyStr.replace "s" "" duration_str);
      Ok (PFloat x)
    else if PyStr.contains "m" duration_str then
      x ← PyFloat.of_string (PyStr.replace "m" "" duration_str);
      Ok (PFloat (x * 60))
    else
      match PyFloat.of_string duration_str with
      | Ok x => Ok (PFloat x)
      | Raise _ => Ok (PInt 0)
      end.

Definition parse_memory_to_mb (memory_str : pyval) : result pyval :=
  if negb (Py.truthy memory_str) then Ok (PInt 0)
  else
    let memory_str := PyStr.upper (str memory_str) in
    if PyStr.contains "GB" memory_str then
      x ← PyFloat.of_string (PyStr.replace "GB" "" memory_str);
      Ok (PFloat (x * 1024))
    else if PyStr.contains "MB" memory_str then
      x ← PyFloat.of_string (PyStr.replace "MB" "" memory_str);
      Ok (PFloat x)
    else if PyStr.contains "KB" memory_str then
      x ← PyFloat.of_string (PyStr.replace "KB" "" memory_str);
      Ok (PFloat (x / 1024))
    else if PyStr.contains "B" memory_str
            && negb (PyStr.contains "KB" memory_str)
            && negb (PyStr.contains "MB" memory_str) then
      x ← PyFloat.of_string (PyStr.replace "B" "" memory_str);
      Ok (PFloat (x / 1048576))
    else
      match PyFloat.of_string memory_str with
      | Ok x => Ok (PFloat (x / 1048576))
      | Raise _ => Ok (PInt 0)
      end.

(** The [status_code == 200] branch of [get_query_stats_from_api], from
    [response.json()] to the returned dict. *)
Definition read_stats (query_id : pyval) (json : result pyval)
  : result (gmap string pyval) :=
  data ← json;
  stats ← Py.get data "queryStats" (PDict ∅);
  cpu_time ←
    Py.get stats "totalCpuTime" PNone
    ||| Py.get stats "cpuTime" PNone
    ||| Py.get stats "totalCpuTimeMillis" PNone
    ||| Ok (PStr "0ms");
  elapsed_time ←
    Py.get stats "elapsedTime" PNone
    ||| Py.get stats "executionTime" PNone
    ||| Py.get stats "elapsedTimeMillis" PNone
    ||| Ok (PStr "0ms");
  peak_memory ←
    Py.get stats "peakMemoryReservation" PNone
    ||| Py.get stats "peakUserMemoryReservation" PNone
    ||| Py.get stats "peakTotalMemoryReservation" PNone
    ||| Py.get stats "peakTaskUserMemory" PNone
    ||| Py.get stats "peakUserMemory" PNone
    ||| Py.get stats "peakTotalMemory" PNone;
  peak_memory ←
    (if Py.truthy peak_memory then Ok peak_memory
     else
       has_stage ← Py.contains "outputStage" data;
       if has_stage : bool then
         output_stage ← Py.item data "outputStage";
         has_stats ← Py.contains "stageStats" output_stage;
         if has_stats : bool then
           stage_stats ← Py.item output_stage "stageStats";
           Py.get stage_stats "peakUserMemoryReservation" PNone
           ||| Py.get stage_stats "peakMemoryReservation" PNone
         else Ok peak_memory
       else Ok peak_memory);
  peak_memory_mb ←
    (if Py.truthy peak_memory then parse_memory_to_mb peak_memory
     else Ok (PInt 0));
  input_rows ←
    Py.get stats "physicalInputRows" PNone
    ||| Py.get stats "processedInputRows" PNone
    ||| Py.get stats "rawInputRows" PNone
    ||| Py.get stats "inputRows" PNone
    ||| Ok (PInt 0);
  output_rows ←
    Py.get stats "outputRows" PNone
    ||| Py.get stats "completedRows" PNone
    ||| Ok (PInt 0);
  state ← Py.get data "state" (PStr "UNKNOWN");
  cpu_time_sec ← parse_duration_to_seconds cpu_time;
  elapsed_time_sec ← parse_duration_to_seconds elapsed_time;
  Ok (<["query_id" := query_id]>
     (<["state" := state]>
     (<["cpu_time_str" := cpu_time]>
     (<["cpu_time_sec" := cpu_time_sec]>
     (<["elapsed_time_str" := elapsed_time]>
     (<["elapsed_time_sec" := elapsed_time_sec]>
     (<["peak_memory_str" := if Py.truthy peak_memory then peak_memory else PNone]>
     (<["peak_memory_mb" := peak_memory_mb]>
     (<["physical_input_rows" := input_rows]>
     (<["output_rows" := output_rows]>
     (<["source" := PStr "REST API"]> ∅))))))))))).

Definition api_url (query_id : string) : string :=
  "http://" ++ host TRINO_CONFIG ++ ":" ++ pretty (port TRINO_CONFIG)
    ++ "/v1/query/" ++ query_id.

(** Returns the dict and the trace of what was requested and printed. *)
Definition get_query_stats_from_api (query_id : pyval)
  : gmap string pyval * list event :=
  if negb (Py.truthy query_id) || Py.is_str "unknown" query_id then (∅, [])
  else
    let api_url := api_url (str query_id) in
    let request := HttpGet api_url (user TRINO_CONFIG) 10 in
    match requests_get api_url with
    | NetworkError msg =>
        (∅, [request; Print (WarnRequestFailed (RequestException msg))])
    | Reply status_code json =>
        if status_code =? 200 then
          match read_stats query_id json with
          | Ok record => (record, [request])
          | Raise (RequestException msg) =>
              (∅, [request; Print (WarnRequestFailed (RequestException msg))])
          | Raise e => (∅, [request; Print (WarnParsing e)])
          end
        else if status_code =? 401 then
          (∅, [request; Print WarnAuthentication])
        else
          (∅, [request; Print (WarnStatus status_code)])
    end.

(** The [try] block of [measure_query_execution]: the captured query
    id, the row count and the status. *)
Definition execute_and_fetch (sql_query : string)
  : pyval * Z * string :=
  match cursor sql_query with
  | ExecuteFails msg => (PNone, 0, "ERROR: " ++ msg)
  | FetchFails handle msg => (default PNone handle, 0, "ERROR: " ++ msg)
  | Fetched handle rows => (default PNone handle, Z.of_nat rows, "SUCCESS")
  end.

(** The block "Extract metrics from server stats" of
    [measure_query_execution]: the CPU seconds, the peak memory, the
    processed rows, the runtime and the source tag. *)
Definition reconcile (server_stats : gmap string pyval) (input_rows : option Z)
    (client_duration : pyval)
  : result (pyval * pyval * pyval * pyval * pyval) :=
  if Py.truthy (PDict server_stats) then
    cpu_seconds ← Py.get (PDict server_stats) "cpu_time_sec" (PInt 0);
    peak_memory_mb ← Py.get (PDict server_stats) "peak_memory_mb" (PInt 0);
    server_input_rows ← Py.get (PDict server_stats) "physical_input_rows" PNone;
    positive ←
      (if Py.truthy server_input_rows then Py.gt_zero server_input_rows
       else Ok false);
    let processed_rows :=
      if positive : bool then server_input_rows
      else Py.por (of_option_int input_rows) (PInt 0) in
    server_elapsed ← Py.get (PDict server_stats) "elapsed_time_sec" (PInt 0);
    stats_source ← Py.get (PDict server_stats) "source" (PStr "unknown");
    elapsed_positive ← Py.gt_zero server_elapsed;
    let runtime :=
      if elapsed_positive : bool then server_elapsed else client_duration in
    let cpu_seconds := if Py.eq_zero cpu_seconds then PNone else cpu_seconds in
    let peak_memory_mb :=
      if Py.eq_zero peak_memory_mb then PNone else peak_memory_mb in
    Ok (cpu_seconds, peak_memory_mb, processed_rows, runtime, stats_source)
  else
    Ok (PNone, PNone, Py.por (of_option_int input_rows) (PInt 0),
        client_duration, PStr "client-only").

(** The block "Calculate throughput" of [measure_query_execution] *)
Definition throughput (processed_rows runtime : pyval) : result pyval :=
  measurable ←
    (if Py.truthy processed_rows then
       rows_positive ← Py.gt_zero processed_rows;
       if rows_positive : bool then Py.gt_zero runtime else Ok false
     else Ok false);
  if measurable : bool then Py.truediv processed_rows runtime
  else Ok (PInt 0).

Definition measure_query_execution (sql_query : string) (input_rows : option Z)
  : result trial * list event :=
  let '(query_id, row_count, status) := execute_and_fetch sql_query in
  let client_duration := PFloat (end_time - start_time) in
  let '(server_stats, trace) := get_query_stats_from_api query_id in
  ('(cpu_seconds, peak_memory_mb, processed_rows, runtime, stats_source)
     ← reconcile server_stats input_rows client_duration;
   throughput_input ← throughput processed_rows runtime;
   Ok {| runtime_sec := runtime;
         client_runtime_sec := client_duration;
         rows_returned := PInt row_count;
         input_rows_processed := processed_rows;
         throughput_input_rows_per_sec := throughput_input;
         cpu_seconds := cpu_seconds;
         peak_memory_mb := peak_memory_mb;
         status := PStr status;
         query_id := Py.por query_id (PStr "unavailable");
         stats_source := stats_source;
         server_stats := server_stats |},
   trace).

(** The row that [run_benchmark] hands to [csv.writer] for iteration
    [i] (counted from 0) of the pattern file [q_file]. *)
Definition csv_row (q_file : string) (i : nat) (metrics : trial) : list pyval :=
  [ PStr "trino";
    PStr q_file;
    PInt (Z.of_nat i + 1);
    runtime_sec metrics;
    client_runtime_sec metrics;
    input_rows_processed metrics;
    rows_returned metrics;
    throughput_input_rows_per_sec metrics;
    match cpu_seconds metrics with PNone => PStr "" | v => v end;
    match peak_memory_mb metrics with PNone => PStr "" | v => v end;
    status metrics;
    query_id metrics ].

End Pipeline.

(** ** The measurement loop of [run_benchmark] *)

(** The statement of a query file as [run_benchmark] reads it:
    [qf.read().strip().rstrip(';')]. *)
Definition read_query (text : string) : string :=
  PyStr.rstrip ";" (PyStr.strip text).

Definition ITERATIONS : nat := 5.

(** [format(v, ".4f")] and the other fixed-point formats of the run
    line: a number is converted to a float, a string has no such format
    code, other values have no format at all. *)
Definition format_fixed (v : pyval) : result unit :=
  match v with
  | PFloat _ | PBool _ => Ok tt
  | PInt z => _ ← PyFloat.of_int z; Ok tt
  | PStr _ =>
      Raise (ValueError "Unknown format code 'f' for object of type 'str'")
  | _ => Raise TypeError
  end.

(** [v is not None and v > 0] *)
Definition measured (v : pyval) : result bool :=
  match v with
  | PNone => Ok false
  | _ => Py.gt_zero v
  end.

(** The four lists that the loop fills for a pattern. *)
Record samples := {
  runtimes : list pyval;
  throughputs : list pyval;
  cpu_times : list pyval;
  memories : list pyval
}.

Definition no_samples : samples :=
  {| runtimes := []; throughputs := []; cpu_times := []; memories := [] |}.

(** The line printed for a run: the run number and the runtime, with
    the throughput, the CPU seconds and the peak memory when they are
    shown; or the run number and the status of a failed run.  The text
    of the numbers is not modelled. *)
Inductive console_line :=
  | RunLine (run : Z) (runtime : pyval) (throughput cpu memory : option pyval)
  | FailedLine (run : Z) (status : pyval).

(** What the clock, the cursor and the network do during one
    iteration. *)
Record moment := {
  clock_start : float;
  clock_end : float;
  cursor_at : string -> cursor_run;
  network_at : string -> http_reply
}.

Section Driver.

Variable repr : pyval -> string.
Variable TRINO_CONFIG : config.

(** The world of each iteration, counted from 0 *)
Variable world : nat -> moment.

Variable q_file sql_query : string.
Variable input_rows : option Z.

(** [measure_query_execution(cur, sql_query, input_rows)] in iteration
    [i] *)
Definition measure_at (i : nat) : result trial * list event :=
  measure_query_execution repr TRINO_CONFIG (network_at (world i))
    (clock_start (world i)) (clock_end (world i)) (cursor_at (world i))
    sql_query input_rows.

(** The body of the loop between the measurement and the CSV row: the
    samples of a successful run are appended and its line is printed;
    a failed run only prints its status.  The two tests of the CPU
    seconds and of the peak memory, for the list and for the line, are
    the same test. *)
Definition record_trial (i : nat) (metrics : trial) (acc : samples)
  : result (samples * console_line) :=
  if Py.is_str "SUCCESS" (status metrics) then
    has_cpu ← measured (cpu_seconds metrics);
    has_memory ← measured (peak_memory_mb metrics);
    _ ← format_fixed (runtime_sec metrics);
    has_throughput ← Py.gt_zero (throughput_input_rows_per_sec metrics);
    _ ← (if has_throughput : bool
         then format_fixed (throughput_input_rows_per_sec metrics)
         else Ok tt);
    _ ← (if has_cpu : bool then format_fixed (cpu_seconds metrics) else Ok tt);
    _ ← (if has_memory : bool then format_fixed (peak_memory_mb metrics)
         else Ok tt);
    Ok ({| runtimes := (runtimes acc ++ [runtime_sec metrics])%list;
           throughputs :=
             (throughputs acc ++ [throughput_input_rows_per_sec metrics])%list;
           cpu_times :=
             if has_cpu : bool then (cpu_times acc ++ [cpu_seconds metrics])%list
             else cpu_times acc;
           memories :=
             if has_memory : bool then (memories acc ++ [peak_memory_mb metrics])%list
             else memories acc |},
        RunLine (Z.of_nat i + 1) (runtime_sec metrics)
          (if has_throughput : bool
           then Some (throughput_input_rows_per_sec metrics) else None)
          (if has_cpu : bool then Some (cpu_seconds metrics) else None)
          (if has_memory : bool then Some (peak_memory_mb metrics) else None))
  else Ok (acc, FailedLine (Z.of_nat i + 1) (status metrics)).

(** What a pattern leaves behind: the rows written to the CSV file, the
    lines printed in full, the trace of the extractor, and the samples,
    or the exception that ended the run. *)
Record pattern_run := {
  csv_rows : list (list pyval);
  console : list console_line;
  requests : list event;
  outcome : result samples
}.

(** The loop over the iterations [indices], from the samples [acc]: an
    exception of the measurer or of the loop body ends the run, and the
    rows written before it stay in the file. *)
Fixpoint measurement_iterations (indices : list nat) (acc : samples)
  : pattern_run :=
  match indices with
  | [] => {| csv_rows := []; console := []; requests := []; outcome := Ok acc |}
  | i :: indices' =>
      match measure_at i with
      | (Raise e, trace) =>
          {| csv_rows := []; console := []; requests := trace;
             outcome := Raise e |}
      | (Ok metrics, trace) =>
          match record_trial i metrics acc with
          | Raise e =>
              {| csv_rows := []; console := []; requests := trace;
                 outcome := Raise e |}
          | Ok (acc', line) =>
              let rest := measurement_iterations indices' acc' in
              {| csv_rows := csv_row q_file i metrics :: csv_rows rest;
                 console := line :: console rest;
                 requests := (trace ++ requests rest)%list;
                 outcome := outcome rest |}
          end
      end
  end.

(** [for i in range(ITERATIONS)], from empty lists *)
Definition measurement_runs : pattern_run :=
  measurement_iterations (seq 0 ITERATIONS) no_samples.

End Driver.

(** ** A concrete world for closed examples

    A coordinator on localhost, a cursor that returns five rows under the
    query id [20240101_000001_00001_abcde], and clock readings three
    seconds apart.  The values of the examples are strings and integers,
    so [str] never reaches [repr_unused]. *)

Definition repr_unused : pyval -> string := fun _ => "".

Definition localhost : config :=
  {| host := "localhost"; port := 8080; user := "admin" |}.

Definition five_rows (sql_query : string) : cursor_run :=
  Fetched (Some (PStr "20240101_000001_00001_abcde")) 5.

Definition always (reply : http_reply) (url : string) : http_reply := reply.

(** The response of the specification's end-to-end example. *)
Definition finished_reply : http_reply :=
  Reply 200
    (Ok (PDict
           (<["state" := PStr "FINISHED"]>
           (<["queryStats" :=
                PDict (<["totalCpuTime" := PStr "2.5s"]>
                      (<["elapsedTime" := PStr "3.1s"]>
                      (<["peakUserMemoryReservation" := PStr "128MB"]>
                      (<["physicalInputRows" := PInt 1000]> ∅))))]> ∅)))).

(** Statistics whose first input-row field is present with the value 0,
    and the response that carries them. *)
Definition zero_then_thousand : gmap string pyval :=
  <["physicalInputRows" := PInt 0]> (<["processedInputRows" := PInt 1000]> ∅).

Definition zero_then_thousand_reply : http_reply :=
  Reply 200 (Ok (PDict (<["queryStats" := PDict zero_then_thousand]> ∅))).

(** A 200 response with a state and empty statistics. *)
Definition bare_data : gmap string pyval :=
  <["state" := PStr "FINISHED"]> (<["queryStats" := PDict ∅]> ∅).

(** A 200 response whose body is a JSON array. *)
Definition array_reply : http_reply := Reply 200 (Ok (PList [])).

(** Statistics whose CPU time has two units, and the response that
    carries them. *)
Definition minutes_stats : gmap string pyval :=
  <["totalCpuTime" := PStr "1m30s"]> (<["elapsedTime" := PStr "3.1s"]> ∅).

Definition minutes_data : gmap string pyval :=
  <["state" := PStr "FINISHED"]> (<["queryStats" := PDict minutes_stats]> ∅).

(** A response whose input rows are a JSON string. *)
Definition text_rows_reply : http_reply :=
  Reply 200
    (Ok (PDict
           (<["queryStats" :=
                PDict (<["elapsedTime" := PStr "3.1s"]>
                      (<["physicalInputRows" := PStr "1000"]> ∅))]> ∅))).

(** Three kinds of iteration: the query returns five rows and the
    endpoint answers [finished_reply]; the query fails in [execute]; the
    endpoint answers [text_rows_reply]. *)
Definition steady : moment :=
  {| clock_start := 100; clock_end := 103;
     cursor_at := five_rows; network_at := always finished_reply |}.

Definition failing : moment :=
  {| clock_start := 100; clock_end := 101;
     cursor_at := fun _ => ExecuteFails "Query exceeded the time limit";
     network_at := always finished_reply |}.

Definition crashing : moment :=
  {| clock_start := 100; clock_end := 103;
     cursor_at := five_rows; network_at := always text_rows_reply |}.

(** A pattern whose third run fails, and one whose fourth run makes the
    measurer raise. *)
Definition third_fails (i : nat) : moment :=
  if Nat.eqb i 2 then failing else steady.

Definition fourth_crashes (i : nat) : moment :=
  if Nat.eqb i 3 then crashing else steady.

(** ** Vocabulary of the properties *)

(** The baseline row estimate is what [get_input_row_count] returns:
    [None], or the [count] of an SQL query, a 64-bit integer. *)
Definition fits_bigint (input_rows : option Z) : Prop :=
  match input_rows with
  | Some n => - 2 ^ 63 ≤ n < 2 ^ 63
  | None => True
  end.

(** The request failed at the network level, or the status of the
    response is not 200. *)
Definition endpoint_fails (reply : http_reply) : Prop :=
  match reply with
  | NetworkError _ => True
  | Reply status_code _ => status_code ≠ 200
  end.

(** What the two parsers return: the int [0] or a float. *)
Definition number_or_zero (v : pyval) : Prop :=
  v = PInt 0 ∨ ∃ f, v = PFloat f.

(** A field of the trial record that is [None] or a float other than
    zero, and a cell of the CSV row that is the empty string or a float
    other than zero. *)
Definition unmeasured_or_nonzero (v : pyval) : Prop :=
  v = PNone ∨ ∃ f, v = PFloat f ∧ (f =? 0)%float = false.

Definition empty_or_nonzero (cell : pyval) : Prop :=
  cell = PStr "" ∨ ∃ f, cell = PFloat f ∧ (f =? 0)%float = false.

Definition reconciled_from (server : option pyval) (field : pyval) : Prop :=
  match server with
  | None => field = PNone
  | Some v => field = if Py.eq_zero v then PNone else v
  end.

Definition cell_of (field cell : pyval) : Prop :=
  match field with
  | PNone => cell = PStr ""
  | v => cell = v
  end.

(** The candidate field names of the four metrics, in the order in
    which the extractor tries them, and those of the two row counts. *)
Definition cpu_fields : list string :=
  ["totalCpuTime"; "cpuTime"; "totalCpuTimeMillis"].
Definition elapsed_fields : list string :=
  ["elapsedTime"; "executionTime"; "elapsedTimeMillis"].
Definition memory_fields : list string :=
  ["peakMemoryReservation"; "peakUserMemoryReservation";
   "peakTotalMemoryReservation"; "peakTaskUserMemory"; "peakUserMemory";
   "peakTotalMemory"].
Definition stage_memory_fields : list string :=
  ["peakUserMemoryReservation"; "peakMemoryReservation"].
Definition input_row_fields : list string :=
  ["physicalInputRows"; "processedInputRows"; "rawInputRows"; "inputRows"].
Definition output_row_fields : list string :=
  ["outputRows"; "completedRows"].

(** The value of the first field that is present and not null. *)
Fixpoint first_present_non_null (fields : list string)
    (stats : gmap string pyval) : option pyval :=
  match fields with
  | [] => None
  | k :: fields' =>
      match stats !! k with
      | Some PNone | None => first_present_non_null fields' stats
      | Some v => Some v
      end
  end.

(** The value of the first field that is present and true: not null,
    not zero, not empty. *)
Fixpoint first_truthy (fields : list string) (stats : gmap string pyval)
  : option pyval :=
  match fields with
  | [] => None
  | k :: fields' =>
      match stats !! k with
      | Some v => if Py.truthy v then Some v else first_truthy fields' stats
      | None => first_truthy fields' stats
      end
  end.

(** The peak memory of the output stage: the first true candidate of
    [data["outputStage"]["stageStats"]], when both are objects. *)
Definition stage_memory (data : gmap string pyval) : option pyval :=
  match data !! "outputStage" with
  | Some (PDict output_stage) =>
      match output_stage !! "stageStats" with
      | Some (PDict stage_stats) => first_truthy stage_memory_fields stage_stats
      | _ => None
      end
  | _ => None
  end.

(** The query statistics contain none of the candidate fields of the
    four metrics. *)
Definition no_candidate_fields (stats : gmap string pyval) : Prop :=
  Forall (λ k, stats !! k = None)
    (cpu_fields ++ elapsed_fields ++ memory_fields ++ input_row_fields).

(** A unit of the duration parser: how it is recognised in the
    normalised text, how it is taken off, and how the number that is
    left converts to seconds. *)
Record unit_rule := {
  recognised : string -> bool;
  without_unit : string -> string;
  to_seconds : float -> float
}.

(** The units of the duration parser in their priority order: [ns], a
    trailing [n], [ms], [us], [s], [m]. *)
Definition duration_units : list unit_rule :=
  [ {| recognised := PyStr.contains "ns";
       without_unit := PyStr.replace "ns" "";
       to_seconds := fun x => (x / 1000000000)%float |};
    {| recognised := PyStr.endswith "n";
       without_unit := PyStr.rstrip "n";
       to_seconds := fun x => (x / 1000000000)%float |};
    {| recognised := PyStr.contains "ms";
       without_unit := PyStr.replace "ms" "";
       to_seconds := fun x => (x / 1000)%float |};
    {| recognised := PyStr.contains "us";
       without_unit := PyStr.replace "us" "";
       to_seconds := fun x => (x / 1000000)%float |};
    {| recognised := PyStr.contains "s";
       without_unit := PyStr.replace "s" "";
       to_seconds := fun x => x |};
    {| recognised := PyStr.contains "m";
       without_unit := PyStr.replace "m" "";
       to_seconds := fun x => (x * 60)%float |} ].

(** The duration parser as the specification words it: 0 for the empty
    string; otherwise the first unit, in priority order, that is
    recognised in the lower-cased, stripped text decides the conversion;
    with no unit the text is a number of seconds, and 0 if it is not a
    number. *)
Definition duration_by_priority (s : string) : result pyval :=
  if String.eqb s "" then Ok (PInt 0)
  else
    let text := PyStr.strip (PyStr.lower s) in
    match find (fun u => recognised u text) duration_units with
    | Some u =>
        x ← PyFloat.of_string (without_unit u text);
        Ok (PFloat (to_seconds u x))
    | None =>
        match PyFloat.of_string text with
        | Ok x => Ok (PFloat x)
        | Raise _ => Ok (PInt 0)
        end
    end.

(** The character [c] occurs in [s] after its first [k] characters. *)
Fixpoint occurs_after (c : ascii) (k : nat) (s : string) : bool :=
  match s with
  | EmptyString => false
  | String a s' =>
      match k with
      | O => Ascii.eqb a c || occurs_after c O s'
      | S k' => occurs_after c k' s'
      end
  end.

Definition occurs (c : ascii) (s : string) : bool := occurs_after c O s.

(** The characters that a string accepted by [float] can hold: white
    space, digits, signs, the point, the underscore, the exponent
    letter, and the letters of [inf], [infinity] and [nan] in any case. *)
Definition float_char (c : ascii) : bool :=
  PyFloat.is_c_space c
  || bool_decide (is_Some (PyFloat.digit_of c))
  || occurs c "+-._eE"
  || occurs (PyStr.lower_char c) "infinityan".

(** The keys of the dict that the extractor builds on a 200 response. *)
Definition record_keys : gset string :=
  {[ "query_id"; "state"; "cpu_time_str"; "cpu_time_sec"; "elapsed_time_str";
     "elapsed_time_sec"; "peak_memory_str"; "peak_memory_mb";
     "physical_input_rows"; "output_rows"; "source" ]}.

(** The identifier is one for which the extractor contacts the endpoint:
    a true value other than ["unknown"]. *)
Definition requestable (query_id : pyval) : bool :=
  Py.truthy query_id && negb (Py.is_str "unknown" query_id).

(** A JSON value that is not an object. *)
Definition not_object (v : pyval) : Prop :=
  match v with
  | PDict _ => False
  | _ => True
  end.

(** An input row count as JSON carries it: a number, an int within the
    64-bit range. *)
Definition row_count (v : pyval) : Prop :=
  match v with
  | PInt n => - 2 ^ 63 ≤ n < 2 ^ 63
  | PFloat _ | PBool _ => True
  | _ => False
  end.

(** A trial as the measurer produces it: the runtime is a float, the CPU
    seconds and the peak memory are [None] or a float, the throughput is
    the int 0 or a float, and the status is a string. *)
Definition trial_of_measurer (t : trial) : Prop :=
  (∃ f, runtime_sec t = PFloat f)
  ∧ (cpu_seconds t = PNone ∨ ∃ f, cpu_seconds t = PFloat f)
  ∧ (peak_memory_mb t = PNone ∨ ∃ f, peak_memory_mb t = PFloat f)
  ∧ (throughput_input_rows_per_sec t = PInt 0
     ∨ ∃ f, throughput_input_rows_per_sec t = PFloat f).

(** The run counts for the statistics of its pattern. *)
Definition successful (t : trial) : bool := Py.is_str "SUCCESS" (status t).

(** A float greater than 0. *)
Definition positive_float (v : pyval) : bool :=
  match v with
  | PFloat f => (0 <? f)%float
  | _ => false
  end.

(** The iterations [indices] of the loop produce the trials [trials],
    one each. *)
Definition produce (repr : pyval -> string) (TRINO_CONFIG : config)
    (world : nat -> moment) (sql_query : string) (input_rows : option Z)
    (indices : list nat) (trials : list trial) : Prop :=
  Forall2
    (fun i t =>
       exists trace,
         measure_at repr TRINO_CONFIG world sql_query input_rows i
         = (Ok t, trace))
    indices trials.

(** Every character of [s] satisfies [q]. *)
Fixpoint all_chars (q : ascii -> bool) (s : string) : bool :=
  match s with
  | EmptyString => true
  | String c s' => q c && all_chars q s'
  end.

Definition is_digit (c : ascii) : bool :=
  bool_decide (is_Some (PyFloat.digit_of c)).

(** * Properties *)

(** ** Characters of a float literal *)

Lemma occurs_cons (c a : ascii) (s : string) :
  occurs c (String a s) = Ascii.eqb a c || occurs c s.
Proof. reflexivity. Qed.

Lemma occurs_lstrip_by (p : ascii → bool) (c : ascii) (s : string) :
  occurs c s = true → p c = false → occurs c (PyStr.lstrip_by p s) = true.
Proof.
  intros Hc Hp. induction s as [| a s IH]; [done |].
  simpl. destruct (p a) eqn:Ha; [| done].
  apply IH. rewrite occurs_cons in Hc.
  destruct (Ascii.eqb_spec a c) as [-> | _]; [congruence | done].
Qed.

Lemma occurs_rstrip_by (p : ascii → bool) (c : ascii) (s : string) :
  occurs c s = true → p c = false → occurs c (PyStr.rstrip_by p s) = true.
Proof.
  intros Hc Hp. induction s as [| a s IH]; [done |].
  rewrite occurs_cons in Hc. simpl.
  destruct (Ascii.eqb_spec a c) as [-> | Hne].
  - rewrite Hp. destruct (PyStr.rstrip_by p s);
      rewrite occurs_cons, Ascii.eqb_refl; done.
  - simpl in Hc. specialize (IH Hc).
    destruct (PyStr.rstrip_by p s); [done |].
    rewrite occurs_cons, IH. apply orb_true_r.
Qed.

Lemma occurs_strip_by (p : ascii → bool) (c : ascii) (s : string) :
  occurs c s = true → p c = false → occurs c (PyStr.strip_by p s) = true.
Proof.
  intros Hc Hp. unfold PyStr.strip_by.
  apply occurs_rstrip_by; [by apply occurs_lstrip_by | done].
Qed.

Lemma occurs_map_chars (f : ascii → ascii) (c : ascii) (s : string) :
  occurs c s = true → occurs (f c) (PyStr.map_chars f s) = true.
Proof.
  induction s as [| a s IH]; [done |].
  simpl. rewrite !occurs_cons.
  destruct (Ascii.eqb_spec a c) as [-> | _].
  - by rewrite Ascii.eqb_refl.
  - simpl. intros H. rewrite (IH H). apply orb_true_r.
Qed.

Lemma float_char_space c : PyFloat.is_c_space c = true → float_char c = true.
Proof. unfold float_char. by intros ->. Qed.

Lemma float_char_digit c : is_Some (PyFloat.digit_of c) → float_char c = true.
Proof.
  unfold float_char. intros H.
  rewrite (bool_decide_eq_true_2 _ H). by rewrite orb_true_r.
Qed.

Lemma float_char_symbol c : occurs c "+-._eE" = true → float_char c = true.
Proof. unfold float_char. intros ->. by rewrite orb_true_r. Qed.

Lemma float_char_letter c :
  occurs (PyStr.lower_char c) "infinityan" = true → float_char c = true.
Proof. unfold float_char. intros ->. by rewrite orb_true_r. Qed.

Lemma scan_digits_chars (c : ascii) (s : string) :
  ∀ prev acc cnt a n rest,
    PyFloat.scan_digits prev acc cnt s = (a, n, rest) →
    occurs c s = true →
    float_char c = true ∨ occurs c rest = true.
Proof.
  induction s as [| b s IH]; intros prev acc cnt a n rest Hscan Hc; [done |].
  simpl in Hscan. rewrite occurs_cons in Hc.
  destruct (PyFloat.digit_of b) as [d|] eqn:Hb.
  - destruct (Ascii.eqb_spec b c) as [<- | _].
    + left. apply float_char_digit. by rewrite Hb.
    + by apply (IH _ _ _ _ _ _ Hscan).
  - destruct (Ascii.eqb_spec b "_") as [-> | _]; simpl in Hscan.
    + destruct (prev && PyFloat.starts_with_digit s).
      * destruct (Ascii.eqb_spec "_" c) as [<- | _];
          [by left | by apply (IH _ _ _ _ _ _ Hscan)].
      * injection Hscan as _ _ <-. right. by rewrite occurs_cons.
    + injection Hscan as _ _ <-. right. by rewrite occurs_cons.
Qed.

Lemma scan_sign_cases (s : string) :
  (PyFloat.scan_sign s).2 = s
  ∨ ∃ sign, (sign = "+"%char ∨ sign = "-"%char)
            ∧ s = String sign (PyFloat.scan_sign s).2.
Proof.
  destruct s as [| a s]; [by left |]. simpl.
  destruct (Ascii.eqb_spec a "+") as [-> | _]; [eauto |].
  destruct (Ascii.eqb_spec a "-") as [-> | _]; eauto.
Qed.

Lemma scan_sign_chars (c : ascii) (s : string) :
  occurs c s = true →
  float_char c = true ∨ occurs c (PyFloat.scan_sign s).2 = true.
Proof.
  intros Hc.
  destruct (scan_sign_cases s) as [-> | (sign & Hsign & Hs)]; [by right |].
  rewrite Hs, occurs_cons in Hc.
  destruct (Ascii.eqb_spec sign c) as [<- | _]; [| by right].
  left. by destruct Hsign as [-> | ->].
Qed.

Lemma scan_exponent_chars (c : ascii) (s : string) (x : Z) :
  PyFloat.scan_exponent s = Some x → occurs c s = true → float_char c = true.
Proof.
  destruct s as [| b s]; [done |]. simpl. intros Hscan Hc.
  destruct (Ascii.eqb b "e" || Ascii.eqb b "E") eqn:Hb; [| done].
  rewrite occurs_cons in Hc.
  destruct (Ascii.eqb_spec b c) as [<- | _].
  { apply float_char_symbol.
    apply orb_true_iff in Hb as [->%Ascii.eqb_eq | ->%Ascii.eqb_eq]; done. }
  destruct (scan_sign_chars c s Hc) as [| Hbody]; [done |].
  destruct (PyFloat.scan_sign s) as [neg body]. simpl in Hbody.
  destruct (PyFloat.scan_digits false 0 0 body) as [[e cnt] rest] eqn:Hd.
  destruct rest; [| done].
  by destruct (scan_digits_chars c body _ _ _ _ _ _ Hd Hbody).
Qed.

Lemma scan_number_chars (c : ascii) (s : string) (r : Z * Z) :
  PyFloat.scan_number s = Some r → occurs c s = true → float_char c = true.
Proof.
  unfold PyFloat.scan_number. intros Hscan Hc.
  destruct (PyFloat.scan_digits false 0 0 s) as [[ip ni] r1] eqn:H1.
  destruct (scan_digits_chars c s _ _ _ _ _ _ H1 Hc) as [| Hr1]; [done |].
  assert (∀ y, (if 0 <? ni then x ← PyFloat.scan_exponent r1; Some (ip, x)
                else None) = Some y → float_char c = true) as Hintegral.
  { intros y Hy. destruct (0 <? ni); [| done].
    destruct (PyFloat.scan_exponent r1) as [x|] eqn:Hx; [| done].
    by apply (scan_exponent_chars c r1 x). }
  destruct r1 as [| d r2]; [by eapply Hintegral |].
  destruct (Ascii.eqb_spec d ".") as [-> | _]; [| by eapply Hintegral].
  rewrite occurs_cons in Hr1.
  destruct (Ascii.eqb_spec "." c) as [<- | _]; [done |]. simpl in Hr1.
  destruct (PyFloat.scan_digits false ip 0 r2) as [[m nf] r3] eqn:H2.
  destruct (scan_digits_chars c r2 _ _ _ _ _ _ H2 Hr1) as [| Hr3]; [done |].
  destruct (0 <? ni + nf); [| done].
  destruct (PyFloat.scan_exponent r3) as [x|] eqn:Hx; [| done].
  by apply (scan_exponent_chars c r3 x).
Qed.

(** A string that [float] accepts holds float characters only. *)
Lemma of_string_chars (c : ascii) (s : string) (v : float) :
  PyFloat.of_string s = Ok v → occurs c s = true → float_char c = true.
Proof.
  unfold PyFloat.of_string. intros Hv Hc.
  destruct (PyFloat.is_c_space c) eqn:Hspace; [by apply float_char_space |].
  apply (occurs_strip_by PyFloat.is_c_space) in Hc; [| done].
  destruct (scan_sign_chars c _ Hc) as [| Hbody]; [done |].
  destruct (PyFloat.scan_sign (PyStr.strip_by PyFloat.is_c_space s))
    as [neg body].
  simpl in Hbody.
  assert (∀ word, PyStr.lower body = word →
                  (∀ a, occurs a word = true → occurs a "infinityan" = true) →
                  float_char c = true) as Hword.
  { intros word Hw Hsub. apply float_char_letter, Hsub.
    rewrite <- Hw. by apply occurs_map_chars. }
  destruct (String.eqb_spec (PyStr.lower body) "inf") as [Hw | _].
  { apply (Hword _ Hw). intros a. rewrite !occurs_cons.
    by repeat destruct (Ascii.eqb _ a). }
  destruct (String.eqb_spec (PyStr.lower body) "infinity") as [Hw | _].
  { apply (Hword _ Hw). intros a. rewrite !occurs_cons.
    by repeat destruct (Ascii.eqb _ a). }
  destruct (String.eqb_spec (PyStr.lower body) "nan") as [Hw | _].
  { apply (Hword _ Hw). intros a. rewrite !occurs_cons.
    by repeat destruct (Ascii.eqb _ a). }
  simpl in Hv.
  destruct (PyFloat.scan_number body) as [r|] eqn:Hr; [| by destruct neg].
  by apply (scan_number_chars c body r).
Qed.

(** ** Characters that [replace] keeps *)

Lemma prefix_occurs_after (c : ascii) (old s : string) :
  String.prefix old s = true → occurs c old = false →
  occurs_after c (String.length old) s = occurs c s.
Proof.
  revert s. induction old as [| o old IH]; intros s Hp Hc; [done |].
  destruct s as [| a s]; [done |]. simpl in Hp.
  destruct (ascii_dec o a) as [<- | _]; [| done].
  rewrite occurs_cons in Hc. apply orb_false_iff in Hc as [Ho Hc].
  rewrite occurs_cons, Ho. simpl. by apply IH.
Qed.

(** Removing the occurrences of [old] keeps every character that is not
    one of [old]. *)
Lemma occurs_replace_from (c o : ascii) (old s : string) :
  ∀ k,
    occurs c (String o old) = false →
    occurs_after c k s = true →
    occurs c (PyStr.replace_from (String o old) "" k s) = true.
Proof.
  induction s as [| a s IH]; intros k Hc Hs; [done |].
  destruct k as [| k]; [| by apply IH].
  cbn [PyStr.replace_from].
  destruct (String.prefix (String o old) (String a s)) eqn:Hp.
  - change (occurs c (String a s) = true) in Hs.
    rewrite <- (prefix_occurs_after c _ _ Hp Hc) in Hs.
    cbn [String.append]. apply IH; [done |].
    cbn [String.length]. by rewrite Nat.sub_succ, Nat.sub_0_r.
  - rewrite occurs_cons. simpl in Hs.
    destruct (Ascii.eqb a c); [done |]. by apply IH.
Qed.

Lemma occurs_replace (c o : ascii) (old s : string) :
  occurs c (String o old) = false → occurs c s = true →
  occurs c (PyStr.replace (String o old) "" s) = true.
Proof. apply occurs_replace_from. Qed.

(** A string that contains [sub] holds the first character of [sub]. *)
Lemma contains_occurs (g : ascii) (sub s : string) :
  PyStr.contains (String g sub) s = true → occurs g s = true.
Proof.
  induction s as [| a s IH]; [done |].
  cbn [PyStr.contains String.prefix]. rewrite occurs_cons.
  destruct (ascii_dec g a) as [<- | _].
  - by rewrite Ascii.eqb_refl.
  - simpl. intros H. rewrite (IH H). apply orb_true_r.
Qed.

Lemma not_contains (g : ascii) (sub s : string) :
  occurs g s = false → PyStr.contains (String g sub) s = false.
Proof.
  intros Hg. destruct (PyStr.contains (String g sub) s) eqn:Hc; [| done].
  apply contains_occurs in Hc. congruence.
Qed.

(** When [float] accepts [s] without its occurrences of [old], [s] holds
    no character outside float literals and [old]. *)
Lemma unit_excludes (c o : ascii) (old s : string) (v : float) :
  PyFloat.of_string (PyStr.replace (String o old) "" s) = Ok v →
  float_char c = false → occurs c (String o old) = false →
  occurs c s = false.
Proof.
  intros Hv Hc Hold. destruct (occurs c s) eqn:Hs; [| done].
  apply (occurs_replace c o old s Hold) in Hs.
  apply (of_string_chars c _ v Hv) in Hs. congruence.
Qed.

Section Properties.

Variable repr : pyval -> string.
Variable TRINO_CONFIG : config.
Variable requests_get : string -> http_reply.
Variable start_time end_time : float.
Variable cursor : string -> cursor_run.

Local Abbreviation extractor :=
  (get_query_stats_from_api repr TRINO_CONFIG requests_get).
Local Abbreviation measurer :=
  (measure_query_execution repr TRINO_CONFIG requests_get
     start_time end_time cursor).

(** *** Shared lemmas *)

Lemma bind_Ok {A B : Type} (k : A → result B) (r : result A) (b : B) :
  r ≫= k = Ok b → ∃ a, r = Ok a ∧ k a = Ok b.
Proof. destruct r as [a|e]; [eauto | discriminate]. Qed.

Ltac inv_bind H :=
  let a := fresh "a" in
  let Ha := fresh "Ha" in
  apply bind_Ok in H as (a & Ha & H).

Lemma parse_duration_to_seconds_number v x :
  parse_duration_to_seconds repr v = Ok x → number_or_zero x.
Proof.
  unfold parse_duration_to_seconds, number_or_zero. intros H.
  repeat case_match; try inv_bind H; simplify_eq; eauto.
Qed.

Lemma parse_memory_to_mb_number v x :
  parse_memory_to_mb repr v = Ok x → number_or_zero x.
Proof.
  unfold parse_memory_to_mb, number_or_zero. intros H.
  repeat case_match; try inv_bind H; simplify_eq; eauto.
Qed.

Lemma truthy_empty_dict : Py.truthy (PDict ∅) = false.
Proof. simpl. by rewrite bool_decide_eq_true_2. Qed.

Lemma truthy_nonempty_dict (d : gmap string pyval) :
  d ≠ ∅ → Py.truthy (PDict d) = true.
Proof. intros H. simpl. by rewrite bool_decide_eq_false_2. Qed.

(** The dict that the extractor builds on a 200 response. *)
Lemma read_stats_shape query_id json record :
  read_stats repr query_id json = Ok record →
  record ≠ ∅
  ∧ record !! "source" = Some (PStr "REST API")
  ∧ (∃ x, record !! "cpu_time_sec" = Some x ∧ number_or_zero x)
  ∧ (∃ x, record !! "elapsed_time_sec" = Some x ∧ number_or_zero x)
  ∧ (∃ x, record !! "peak_memory_mb" = Some x ∧ number_or_zero x)
  ∧ (∃ x, record !! "physical_input_rows" = Some x).
Proof.
  unfold read_stats. intros H.
  repeat inv_bind H.
  injection H as <-.
  split; [apply insert_non_empty |].
  split; [reflexivity |].
  split; [eexists; split; [reflexivity | eauto using parse_duration_to_seconds_number] |].
  split; [eexists; split; [reflexivity | eauto using parse_duration_to_seconds_number] |].
  split; [| eexists; reflexivity].
  eexists; split; [reflexivity |].
  match goal with
  | Hm : (if Py.truthy ?p then _ else _) = Ok ?x |- number_or_zero ?x =>
      destruct (Py.truthy p);
      [eauto using parse_memory_to_mb_number | left; congruence]
  end.
Qed.

(** The extractor returns the empty dict or the dict of a 200 response. *)
Lemma extractor_cases query_id :
  (extractor query_id).1 = ∅
  ∨ ∃ json, read_stats repr query_id json = Ok (extractor query_id).1.
Proof.
  unfold get_query_stats_from_api.
  repeat case_match; simpl; eauto.
Qed.

(** How a produced trial is reconciled: from an empty extractor record,
    or from the seconds and megabytes of a 200 response. *)
Lemma measurer_inv sql_query input_rows t trace :
  measurer sql_query input_rows = (Ok t, trace) →
  let qid := (execute_and_fetch cursor sql_query).1.1 in
  let client := PFloat (end_time - start_time) in
  server_stats t = (extractor qid).1
  ∧ client_runtime_sec t = client
  ∧ query_id t = Py.por qid (PStr "unavailable")
  ∧ ((server_stats t = ∅
      ∧ cpu_seconds t = PNone
      ∧ peak_memory_mb t = PNone
      ∧ input_rows_processed t = Py.por (of_option_int input_rows) (PInt 0)
      ∧ runtime_sec t = client
      ∧ stats_source t = PStr "client-only")
     ∨ (∃ cpu mem elapsed,
          server_stats t ≠ ∅
          ∧ server_stats t !! "cpu_time_sec" = Some cpu ∧ number_or_zero cpu
          ∧ server_stats t !! "peak_memory_mb" = Some mem ∧ number_or_zero mem
          ∧ server_stats t !! "elapsed_time_sec" = Some elapsed
          ∧ number_or_zero elapsed
          ∧ cpu_seconds t = (if Py.eq_zero cpu then PNone else cpu)
          ∧ peak_memory_mb t = (if Py.eq_zero mem then PNone else mem)
          ∧ (∃ b : bool, Py.gt_zero elapsed = Ok b
                         ∧ runtime_sec t = if b then elapsed else client)
          ∧ stats_source t = PStr "REST API")).
Proof.
  unfold measure_query_execution. intros H. cbv zeta.
  destruct (execute_and_fetch cursor sql_query) as [[qid rows] st].
  cbn [fst].
  pose proof (extractor_cases qid) as Hcases.
  destruct (extractor qid) as [stats tr]. cbn [fst] in *.
  apply (f_equal fst) in H. cbn [fst] in H.
  inv_bind H. destruct a as [[[[c m] p] r] s].
  inv_bind H. injection H as <-. simpl.
  unfold reconcile in Ha.
  destruct Hcases as [Hempty | [json Hjson]].
  - subst stats. rewrite truthy_empty_dict in Ha.
    injection Ha as <- <- <- <- <-. auto 10.
  - apply read_stats_shape in Hjson
      as (Hne & Hsrc & (cpu & Hcpu & Ncpu) & (el & Hel & Nel)
          & (mem & Hmem & Nmem) & (rws & Hrws)).
    rewrite (truthy_nonempty_dict _ Hne) in Ha. simpl in Ha.
    rewrite Hcpu, Hmem, Hrws, Hel, Hsrc in Ha. simpl in Ha.
    inv_bind Ha. inv_bind Ha. injection Ha as <- <- <- <- <-.
    repeat split; try done.
    right. exists cpu, mem, el. eauto 20.
Qed.

(** A float greater than zero is not equal to zero. *)
Lemma positive_float_nonzero (d : float) :
  (0 <? d)%float = true → (d =? 0)%float = false.
Proof.
  rewrite FloatAxioms.ltb_spec, FloatAxioms.eqb_spec.
  change (Prim2SF 0) with (S754_zero false).
  by destruct (Prim2SF d) as [? | [] | | [] ? ?].
Qed.

(** A row count within the range of an SQL [BIGINT] converts to a float. *)
Lemma of_int_bigint (n : Z) :
  - 2 ^ 63 ≤ n < 2 ^ 63 → ∃ f, PyFloat.of_int n = Ok f.
Proof.
  intros Hn. unfold PyFloat.of_int.
  destruct (Z.leb_spec (2 ^ 1024 - 2 ^ 970) (Z.abs n)) as [Hbig | _]; [| eauto].
  exfalso. revert Hbig.
  assert (2 ^ 63 < 2 ^ 1024 - 2 ^ 970) by reflexivity. lia.
Qed.

(** The throughput of a baseline row count over a float runtime is
    defined. *)
Lemma throughput_of_baseline (input_rows : option Z) (r : float) :
  fits_bigint input_rows →
  ∃ x, throughput (Py.por (of_option_int input_rows) (PInt 0)) (PFloat r) = Ok x.
Proof.
  intros Hfit. unfold throughput, Py.por.
  destruct input_rows as [n|]; simpl; [| eauto].
  destruct (n =? 0) eqn:H0; simpl; [eauto |]. rewrite H0. simpl.
  destruct (0 <? n); simpl; [| eauto].
  destruct (0 <? r)%float eqn:Hr; simpl; [| eauto].
  unfold Py.truediv. simpl.
  destruct (of_int_bigint n Hfit) as [f ->]. simpl.
  rewrite (positive_float_nonzero r Hr). eauto.
Qed.

(** [input_rows or 0] is the baseline, and 0 when there is none. *)
Lemma baseline_or_zero (input_rows : option Z) :
  Py.por (of_option_int input_rows) (PInt 0) = PInt (default 0 input_rows).
Proof.
  destruct input_rows as [n|]; [| reflexivity].
  unfold Py.por. simpl. destruct (Z.eqb_spec n 0) as [-> | _]; reflexivity.
Qed.

(** With an empty extractor record the measurer produces a trial from
    the client-side measurements alone. *)
Lemma measurer_client_only sql_query input_rows :
  (extractor (execute_and_fetch cursor sql_query).1.1).1 = ∅ →
  fits_bigint input_rows →
  ∃ t,
    measurer sql_query input_rows
    = (Ok t, (extractor (execute_and_fetch cursor sql_query).1.1).2)
    ∧ server_stats t = ∅
    ∧ stats_source t = PStr "client-only"
    ∧ cpu_seconds t = PNone
    ∧ peak_memory_mb t = PNone
    ∧ input_rows_processed t = PInt (default 0 input_rows)
    ∧ runtime_sec t = PFloat (end_time - start_time).
Proof.
  intros Hempty Hfit. unfold measure_query_execution.
  destruct (execute_and_fetch cursor sql_query) as [[qid rows] st].
  cbn [fst] in *.
  destruct (extractor qid) as [stats tr]. cbn [fst snd] in *. subst stats.
  unfold reconcile. rewrite truthy_empty_dict. simpl.
  destruct (throughput_of_baseline input_rows (end_time - start_time) Hfit)
    as [x ->]. simpl.
  eexists. split; [reflexivity |]. simpl.
  rewrite baseline_or_zero. auto 10.
Qed.

(** *** The [or] chains of the extractor *)

Lemma or_else_settled (x : pyval) (rest : list (result pyval)) :
  Py.truthy x = true → fold_left Py.or_else rest (Ok x) = Ok x.
Proof.
  intros Hx. induction rest as [| r rest IH]; [reflexivity |].
  simpl. by rewrite Hx.
Qed.

(** A chain of [stats.get(k)] joined by [or] gives the first true value,
    or else a false one. *)
Lemma or_chain (stats : gmap string pyval) (fields : list string) (x : pyval) :
  Py.truthy x = false →
  ∃ v,
    fold_left Py.or_else
      (map (λ k, Py.get (PDict stats) k PNone) fields) (Ok x) = Ok v
    ∧ first_truthy fields stats = if Py.truthy v then Some v else None.
Proof.
  revert x. induction fields as [| k fields IH]; intros x Hx; simpl.
  - exists x. by rewrite Hx.
  - rewrite Hx. destruct (stats !! k) as [v|] eqn:Hk; simpl.
    + destruct (Py.truthy v) eqn:Hv.
      * exists v. by rewrite or_else_settled, Hv.
      * by apply IH.
    + by apply IH.
Qed.

Lemma or_chain_default (stats : gmap string pyval) (fields : list string)
    (dflt : pyval) :
  fold_left Py.or_else
    (map (λ k, Py.get (PDict stats) k PNone) fields ++ [Ok dflt]) (Ok PNone)
  = Ok (default dflt (first_truthy fields stats)).
Proof.
  rewrite fold_left_app.
  destruct (or_chain stats fields PNone eq_refl) as (v & -> & ->).
  simpl. by destruct (Py.truthy v).
Qed.

Lemma first_truthy_absent (stats : gmap string pyval) (fields : list string) :
  Forall (λ k, stats !! k = None) fields → first_truthy fields stats = None.
Proof.
  induction 1 as [| k fields Hk _ IH]; [reflexivity |].
  simpl. by rewrite Hk.
Qed.

(** The chains as [read_stats] writes them. *)
Lemma cpu_chain (stats : gmap string pyval) :
  Py.get (PDict stats) "totalCpuTime" PNone
  ||| Py.get (PDict stats) "cpuTime" PNone
  ||| Py.get (PDict stats) "totalCpuTimeMillis" PNone
  ||| Ok (PStr "0ms")
  = Ok (default (PStr "0ms") (first_truthy cpu_fields stats)).
Proof. exact (or_chain_default stats cpu_fields (PStr "0ms")). Qed.

Lemma elapsed_chain (stats : gmap string pyval) :
  Py.get (PDict stats) "elapsedTime" PNone
  ||| Py.get (PDict stats) "executionTime" PNone
  ||| Py.get (PDict stats) "elapsedTimeMillis" PNone
  ||| Ok (PStr "0ms")
  = Ok (default (PStr "0ms") (first_truthy elapsed_fields stats)).
Proof. exact (or_chain_default stats elapsed_fields (PStr "0ms")). Qed.

Lemma input_rows_chain (stats : gmap string pyval) :
  Py.get (PDict stats) "physicalInputRows" PNone
  ||| Py.get (PDict stats) "processedInputRows" PNone
  ||| Py.get (PDict stats) "rawInputRows" PNone
  ||| Py.get (PDict stats) "inputRows" PNone
  ||| Ok (PInt 0)
  = Ok (default (PInt 0) (first_truthy input_row_fields stats)).
Proof. exact (or_chain_default stats input_row_fields (PInt 0)). Qed.

Lemma output_rows_chain (stats : gmap string pyval) :
  Py.get (PDict stats) "outputRows" PNone
  ||| Py.get (PDict stats) "completedRows" PNone
  ||| Ok (PInt 0)
  = Ok (default (PInt 0) (first_truthy output_row_fields stats)).
Proof. exact (or_chain_default stats output_row_fields (PInt 0)). Qed.

Lemma memory_chain (stats : gmap string pyval) :
  ∃ v,
    Py.get (PDict stats) "peakMemoryReservation" PNone
    ||| Py.get (PDict stats) "peakUserMemoryReservation" PNone
    ||| Py.get (PDict stats) "peakTotalMemoryReservation" PNone
    ||| Py.get (PDict stats) "peakTaskUserMemory" PNone
    ||| Py.get (PDict stats) "peakUserMemory" PNone
    ||| Py.get (PDict stats) "peakTotalMemory" PNone
    = Ok v
    ∧ first_truthy memory_fields stats = if Py.truthy v then Some v else None.
Proof. exact (or_chain stats memory_fields PNone eq_refl). Qed.

Lemma stage_memory_chain (stage_stats : gmap string pyval) :
  ∃ v,
    Py.get (PDict stage_stats) "peakUserMemoryReservation" PNone
    ||| Py.get (PDict stage_stats) "peakMemoryReservation" PNone
    = Ok v
    ∧ first_truthy stage_memory_fields stage_stats
      = if Py.truthy v then Some v else None.
Proof. exact (or_chain stage_stats stage_memory_fields PNone eq_refl). Qed.

(** The raw fields of the dict built on a 200 response whose body is an
    object. *)
Lemma read_stats_fields query_id (data record : gmap string pyval) :
  read_stats repr query_id (Ok (PDict data)) = Ok record →
  ∃ stats,
    default (PDict ∅) (data !! "queryStats") = PDict stats
    ∧ record !! "cpu_time_str"
      = Some (default (PStr "0ms") (first_truthy cpu_fields stats))
    ∧ record !! "elapsed_time_str"
      = Some (default (PStr "0ms") (first_truthy elapsed_fields stats))
    ∧ record !! "physical_input_rows"
      = Some (default (PInt 0) (first_truthy input_row_fields stats))
    ∧ record !! "peak_memory_str"
      = Some (default PNone
                (match first_truthy memory_fields stats with
                 | Some v => Some v
                 | None => stage_memory data
                 end)).
Proof.
  unfold read_stats. intros H. simpl in H.
  destruct (default (PDict ∅) (data !! "queryStats")) as [| | | | | |stats];
    try discriminate.
  exists stats. split; [reflexivity |].
  inv_bind H. rename a into cpu, Ha into Hcpu.
  inv_bind H. rename a into el, Ha into Hel.
  inv_bind H. rename a into pm, Ha into Hpm.
  inv_bind H. rename a into pm', Ha into Hpm'.
  inv_bind H. rename a into mb, Ha into Hmb.
  inv_bind H. rename a into rws, Ha into Hrws.
  repeat inv_bind H. injection H as <-.
  rewrite cpu_chain in Hcpu. injection Hcpu as <-.
  rewrite elapsed_chain in Hel. injection Hel as <-.
  rewrite input_rows_chain in Hrws. injection Hrws as <-.
  do 3 (split; [reflexivity |]).
  change (Some (if Py.truthy pm' then pm' else PNone)
          = Some (default PNone
                    (match first_truthy memory_fields stats with
                     | Some v => Some v
                     | None => stage_memory data
                     end))).
  f_equal.
  destruct (memory_chain stats) as (v & Hv & ->).
  rewrite Hv in Hpm. injection Hpm as ->. clear Hv.
  destruct (Py.truthy pm) eqn:Tpm.
  { injection Hpm' as <-. by rewrite Tpm. }
  unfold stage_memory.
  destruct (data !! "outputStage") as [output_stage|];
    [| injection Hpm' as <-; by rewrite Tpm].
  rewrite bool_decide_eq_true_2 in Hpm' by eauto. simpl in Hpm'.
  destruct output_stage as [| | | |str|l|stage]; try discriminate; simpl in Hpm'.
  - destruct (PyStr.contains "stageStats" str); [discriminate |].
    injection Hpm' as <-. by rewrite Tpm.
  - destruct (existsb (Py.is_str "stageStats") l); [discriminate |].
    injection Hpm' as <-. by rewrite Tpm.
  - destruct (stage !! "stageStats") as [stage_stats|];
      [| rewrite bool_decide_eq_false_2 in Hpm' by (by intros [? ?]);
         injection Hpm' as <-; by rewrite Tpm].
    rewrite bool_decide_eq_true_2 in Hpm' by eauto. simpl in Hpm'.
    destruct stage_stats as [| | | | | |stage_stats]; try discriminate.
    destruct (stage_memory_chain stage_stats) as (w & Hw & ->).
    rewrite Hw in Hpm'. injection Hpm' as ->.
    by destruct (Py.truthy pm').
Qed.

(** A 200 response whose statistics have none of the candidate fields
    and no output stage still gives a full record, of zeros. *)
Lemma read_stats_without_candidates query_id (data stats : gmap string pyval) :
  default (PDict ∅) (data !! "queryStats") = PDict stats →
  no_candidate_fields stats →
  data !! "outputStage" = None →
  ∃ record,
    read_stats repr query_id (Ok (PDict data)) = Ok record
    ∧ record ≠ ∅
    ∧ record !! "cpu_time_str" = Some (PStr "0ms")
    ∧ record !! "elapsed_time_str" = Some (PStr "0ms")
    ∧ record !! "cpu_time_sec" = Some (PFloat 0)
    ∧ record !! "elapsed_time_sec" = Some (PFloat 0)
    ∧ record !! "peak_memory_mb" = Some (PInt 0)
    ∧ record !! "physical_input_rows" = Some (PInt 0)
    ∧ record !! "source" = Some (PStr "REST API").
Proof.
  intros Hstats Hnone Hstage. unfold no_candidate_fields in Hnone.
  rewrite !Forall_app in Hnone. destruct Hnone as (Hc & He & Hm & Hr).
  unfold read_stats. cbn [mbind result_bind Py.get]. rewrite Hstats.
  rewrite cpu_chain, elapsed_chain, input_rows_chain, output_rows_chain.
  destruct (memory_chain stats) as (v & Hv & Hfirst). rewrite Hv.
  rewrite (first_truthy_absent _ _ Hm) in Hfirst.
  rewrite (first_truthy_absent _ _ Hc), (first_truthy_absent _ _ He),
    (first_truthy_absent _ _ Hr).
  destruct (Py.truthy v) eqn:Tv; [discriminate |].
  cbn [mbind result_bind default]. rewrite Tv.
  unfold Py.contains. rewrite Hstage.
  rewrite bool_decide_eq_false_2 by (by intros [? ?]).
  cbn [mbind result_bind]. rewrite Tv. cbn [mbind result_bind].
  change (parse_duration_to_seconds repr (PStr "0ms")) with (Ok (PFloat 0)).
  cbn [mbind result_bind].
  eexists. split; [reflexivity |].
  split; [apply insert_non_empty |].
  repeat split; reflexivity.
Qed.

(** C1: in every trial that the measurer produces, [runtime_sec] is the
    extractor's [elapsed_time_sec] when the extractor's record has one
    and it is greater than 0, and the client wall-clock duration
    [end_time - start_time] in every other case; the two cases exclude
    each other, and [runtime_sec] is a float in both. *)
Theorem runtime_from_one_source sql_query input_rows t trace :
  measurer sql_query input_rows = (Ok t, trace) →
  server_stats t = (extractor (execute_and_fetch cursor sql_query).1.1).1
  ∧ client_runtime_sec t = PFloat (end_time - start_time)
  ∧ ((∃ v, server_stats t !! "elapsed_time_sec" = Some v
           ∧ Py.gt_zero v = Ok true
           ∧ runtime_sec t = v)
     ∨ ((∀ v, server_stats t !! "elapsed_time_sec" = Some v
              → Py.gt_zero v = Ok false)
        ∧ runtime_sec t = PFloat (end_time - start_time)))
  ∧ ∃ f, runtime_sec t = PFloat f.
Proof.
  intros H. apply measurer_inv in H as (Hstats & Hclient & _ & Hcases).
  split; [done |]. split; [done |].
  destruct Hcases as [(Hempty & _ & _ & _ & Hrun & _) | Hserver].
  - split; [| eauto]. right. split; [| done].
    intros v. rewrite Hempty, lookup_empty. discriminate.
  - destruct Hserver
      as (cpu & mem & el & _ & _ & _ & _ & _ & Hel & Nel & _ & _
          & (b & Hb & Hrun) & _).
    destruct b.
    + split; [left; eauto |].
      destruct Nel as [-> | [f ->]]; [discriminate | eauto].
    + split; [| eauto]. right. split; [| done].
      intros v. rewrite Hel. by intros [= <-].
Qed.

(** C2, as the code has it: the duration parser is the priority list
    [ns], trailing [n], [ms], [us], [s], [m], then a bare number: on
    every string it returns what [duration_by_priority] returns.
    ["1.23s"] gives 1.23, ["100ns"] gives 1e-7, ["2m"] gives 120.0, the
    empty string and [None] give the int 0, ["5"] gives 5.0; and
    ["456.78ms"] gives 0.45677999999999996, the double next below
    0.45678, because the double nearest to 456.78 is divided by 1000. *)
Theorem duration_parser_by_priority :
  (∀ s, parse_duration_to_seconds repr (PStr s) = duration_by_priority s)
  ∧ parse_duration_to_seconds repr (PStr "1.23s") = Ok (PFloat 1.23)
  ∧ parse_duration_to_seconds repr (PStr "456.78ms")
    = Ok (PFloat 0.45677999999999996)
  ∧ next_down 0.45678 = 0.45677999999999996%float
  ∧ parse_duration_to_seconds repr (PStr "100ns") = Ok (PFloat 1e-7)
  ∧ parse_duration_to_seconds repr (PStr "2m") = Ok (PFloat 120)
  ∧ parse_duration_to_seconds repr (PStr "") = Ok (PInt 0)
  ∧ parse_duration_to_seconds repr PNone = Ok (PInt 0)
  ∧ parse_duration_to_seconds repr (PStr "5") = Ok (PFloat 5).
Proof.
  split; [| repeat split; vm_compute; reflexivity].
  intros s. unfold parse_duration_to_seconds, duration_by_priority.
  cbn [Py.truthy str]. destruct (String.eqb s ""); [reflexivity |].
  cbn [negb find duration_units recognised].
  by repeat (case_match; cbn [without_unit to_seconds]).
Qed.

(** C3: for a non-empty memory string, upper-cased, with [value] the
    number that [float] reads once the unit is taken off: a string
    containing [GB] gives [value * 1024]; one containing [MB] gives
    [value]; one containing [KB] gives [value / 1024]; one containing
    [B] but neither [KB] nor [MB] gives [value / 1024²]; a bare number
    gives [value / 1024²].  The empty string and [None] give 0.
    ["256.5MB"] gives 256.5, ["1.2GB"] gives 1228.8, ["512KB"] gives 0.5
    and ["1048576"] gives 1.0. *)
Theorem memory_parser_units :
  (∀ s value,
     s ≠ "" →
     let text := PyStr.upper s in
     (PyStr.contains "GB" text = true →
      PyFloat.of_string (PyStr.replace "GB" "" text) = Ok value →
      parse_memory_to_mb repr (PStr s) = Ok (PFloat (value * 1024)))
     ∧ (PyStr.contains "MB" text = true →
        PyFloat.of_string (PyStr.replace "MB" "" text) = Ok value →
        parse_memory_to_mb repr (PStr s) = Ok (PFloat value))
     ∧ (PyStr.contains "KB" text = true →
        PyFloat.of_string (PyStr.replace "KB" "" text) = Ok value →
        parse_memory_to_mb repr (PStr s) = Ok (PFloat (value / 1024)))
     ∧ (PyStr.contains "B" text = true →
        PyStr.contains "KB" text = false →
        PyStr.contains "MB" text = false →
        PyFloat.of_string (PyStr.replace "B" "" text) = Ok value →
        parse_memory_to_mb repr (PStr s) = Ok (PFloat (value / 1048576)))
     ∧ (PyFloat.of_string text = Ok value →
        parse_memory_to_mb repr (PStr s) = Ok (PFloat (value / 1048576))))
  ∧ parse_memory_to_mb repr (PStr "") = Ok (PInt 0)
  ∧ parse_memory_to_mb repr PNone = Ok (PInt 0)
  ∧ parse_memory_to_mb repr (PStr "256.5MB") = Ok (PFloat 256.5)
  ∧ parse_memory_to_mb repr (PStr "1.2GB") = Ok (PFloat 1228.8)
  ∧ parse_memory_to_mb repr (PStr "512KB") = Ok (PFloat 0.5)
  ∧ parse_memory_to_mb repr (PStr "1048576") = Ok (PFloat 1).
Proof.
  split; [| repeat split; vm_compute; reflexivity].
  intros s value Hs text.
  assert (∀ branches : result pyval,
            (if negb (Py.truthy (PStr s)) then Ok (PInt 0) else branches)
            = branches) as Hnonempty.
  { intros branches. simpl.
    by destruct (String.eqb_spec s "") as [-> | _]. }
  unfold parse_memory_to_mb. rewrite Hnonempty. cbn [str]. fold text.
  repeat split.
  - intros -> ->. reflexivity.
  - intros HMB Hv.
    rewrite (not_contains "G" "B" text), HMB, Hv; [reflexivity |].
    by apply (unit_excludes "G" "M" "B" text value).
  - intros HKB Hv.
    rewrite (not_contains "G" "B" text), (not_contains "M" "B" text), HKB, Hv;
      [reflexivity | |];
      by apply (unit_excludes _ "K" "B" text value).
  - intros HB HKB HMB Hv.
    rewrite (not_contains "G" "B" text), HMB, HKB, HB, Hv; [reflexivity |].
    by apply (unit_excludes "G" "B" "" text value).
  - intros Hv.
    assert (∀ c, float_char c = false → occurs c text = false) as Hno.
    { intros c Hc. destruct (occurs c text) eqn:Ho; [| done].
      apply (of_string_chars c text value Hv) in Ho. congruence. }
    rewrite (not_contains "G" "B" text), (not_contains "M" "B" text),
      (not_contains "K" "B" text), (not_contains "B" "" text), Hv;
      [reflexivity | | | |]; by apply Hno.
Qed.

(** C4, at inputs where it fails: a text with a recognised unit whose
    remainder is not a number makes both parsers raise [ValueError];
    only the branch without a unit returns 0. *)
Theorem parsers_raise_on_malformed_number :
  parse_duration_to_seconds repr (PStr "1m30s") = Raise (ValueError "1m30")
  ∧ parse_memory_to_mb repr (PStr "1.5TB") = Raise (ValueError "1.5T")
  ∧ parse_duration_to_seconds repr (PStr "1h30") = Ok (PInt 0).
Proof. repeat split; vm_compute; reflexivity. Qed.

(** C5: in every trial that the measurer produces, [cpu_seconds] and
    [peak_memory_mb] are [None] or a float that is not zero: they are
    [None] when the extractor's record has no value or a value equal to
    zero, and the value otherwise.  In the CSV row of the trial the two
    cells are the empty string for [None] and the value otherwise, so
    they are the empty string or a float that is not zero. *)
Theorem cpu_and_memory_never_zero sql_query input_rows t trace q_file i :
  measurer sql_query input_rows = (Ok t, trace) →
  unmeasured_or_nonzero (cpu_seconds t)
  ∧ unmeasured_or_nonzero (peak_memory_mb t)
  ∧ reconciled_from (server_stats t !! "cpu_time_sec") (cpu_seconds t)
  ∧ reconciled_from (server_stats t !! "peak_memory_mb") (peak_memory_mb t)
  ∧ ∃ cpu_cell memory_cell,
      csv_row q_file i t !! 8%nat = Some cpu_cell
      ∧ csv_row q_file i t !! 9%nat = Some memory_cell
      ∧ cell_of (cpu_seconds t) cpu_cell
      ∧ cell_of (peak_memory_mb t) memory_cell
      ∧ empty_or_nonzero cpu_cell
      ∧ empty_or_nonzero memory_cell.
Proof.
  intros H. apply measurer_inv in H as (_ & _ & _ & Hcases).
  assert (∀ v, number_or_zero v →
               unmeasured_or_nonzero (if Py.eq_zero v then PNone else v))
    as Hfield.
  { intros v [-> | [f ->]]; simpl; [by left |].
    destruct (f =? 0)%float eqn:Hf; [by left | right; eauto]. }
  assert (unmeasured_or_nonzero (cpu_seconds t)
          ∧ unmeasured_or_nonzero (peak_memory_mb t)
          ∧ reconciled_from (server_stats t !! "cpu_time_sec") (cpu_seconds t)
          ∧ reconciled_from (server_stats t !! "peak_memory_mb")
              (peak_memory_mb t))
    as (Hcpu & Hmem & Rcpu & Rmem).
  { destruct Hcases as [(Hempty & -> & -> & _) | Hserver].
    - rewrite Hempty, !lookup_empty. repeat split; by left.
    - destruct Hserver
        as (cpu & mem & el & _ & -> & Ncpu & -> & Nmem & _ & _ & -> & -> & _).
      simpl. auto. }
  repeat (split; [done |]).
  exists (match cpu_seconds t with PNone => PStr "" | v => v end),
    (match peak_memory_mb t with PNone => PStr "" | v => v end).
  split; [reflexivity |]. split; [reflexivity |].
  destruct Hcpu as [-> | [f [-> Hf]]], Hmem as [-> | [g [-> Hg]]];
    unfold empty_or_nonzero; simpl; eauto 10.
Qed.

(** C6: when the request to the statistics endpoint fails at the
    network level or is answered with a status other than 200 (401
    included), the extractor returns the empty dict, and the measurer
    still produces a trial, for a baseline within the range of a row
    count: its source tag is ["client-only"], [cpu_seconds] and
    [peak_memory_mb] are [None], the processed rows are the baseline
    estimate (0 when there is none) and the runtime is the client
    wall-clock duration. *)
Theorem endpoint_failure_is_soft :
  (∀ query_id,
     endpoint_fails (requests_get (api_url TRINO_CONFIG (str repr query_id))) →
     (extractor query_id).1 = ∅)
  ∧ (∀ sql_query input_rows,
       endpoint_fails
         (requests_get
            (api_url TRINO_CONFIG
               (str repr (execute_and_fetch cursor sql_query).1.1))) →
       fits_bigint input_rows →
       ∃ t trace,
         measurer sql_query input_rows = (Ok t, trace)
         ∧ server_stats t = ∅
         ∧ stats_source t = PStr "client-only"
         ∧ cpu_seconds t = PNone
         ∧ peak_memory_mb t = PNone
         ∧ input_rows_processed t = PInt (default 0 input_rows)
         ∧ runtime_sec t = PFloat (end_time - start_time)).
Proof.
  assert (∀ query_id,
            endpoint_fails
              (requests_get (api_url TRINO_CONFIG (str repr query_id))) →
            (extractor query_id).1 = ∅) as Hempty.
  { intros query_id Hfail. unfold get_query_stats_from_api.
    destruct (negb (Py.truthy query_id) || Py.is_str "unknown" query_id);
      [reflexivity |].
    destruct (requests_get _) as [msg | status_code json]; [reflexivity |].
    apply Z.eqb_neq in Hfail. rewrite Hfail.
    by destruct (status_code =? 401). }
  split; [done |].
  intros sql_query input_rows Hfail Hfit.
  destruct (measurer_client_only sql_query input_rows (Hempty _ Hfail) Hfit)
    as (t & Ht). eauto.
Qed.

(** C7: called with a missing identifier ([None], or any false value
    such as the empty string) or with the sentinel ["unknown"], the
    extractor returns the empty dict and its trace is empty: no HTTP
    request is issued and nothing is printed. *)
Theorem extractor_short_circuit (query_id : pyval) :
  Py.truthy query_id = false ∨ query_id = PStr "unknown" →
  extractor query_id = (∅, []).
Proof.
  intros [Hfalse | ->]; unfold get_query_stats_from_api.
  - by rewrite Hfalse.
  - reflexivity.
Qed.


(** C8, as the code has it: on a 200 response whose body is an object,
    a record that the extractor returns holds, for the CPU time, the
    elapsed time and the input row count, the value of the first
    candidate field that is present and true (not null, not zero, not
    empty), and the default (["0ms"], ["0ms"], [0]) when there is none;
    for the peak memory it holds the first true top-level candidate, or
    else the first true candidate of the output stage's statistics, or
    else [None]. *)
Theorem extractor_probes_first_true_value query_id (data : gmap string pyval) :
  requests_get (api_url TRINO_CONFIG (str repr query_id))
  = Reply 200 (Ok (PDict data)) →
  (extractor query_id).1 ≠ ∅ →
  ∃ stats,
    default (PDict ∅) (data !! "queryStats") = PDict stats
    ∧ (extractor query_id).1 !! "cpu_time_str"
      = Some (default (PStr "0ms") (first_truthy cpu_fields stats))
    ∧ (extractor query_id).1 !! "elapsed_time_str"
      = Some (default (PStr "0ms") (first_truthy elapsed_fields stats))
    ∧ (extractor query_id).1 !! "physical_input_rows"
      = Some (default (PInt 0) (first_truthy input_row_fields stats))
    ∧ (extractor query_id).1 !! "peak_memory_str"
      = Some (default PNone
                (match first_truthy memory_fields stats with
                 | Some v => Some v
                 | None => stage_memory data
                 end)).
Proof.
  intros Hreply. unfold get_query_stats_from_api.
  destruct (negb (Py.truthy query_id) || Py.is_str "unknown" query_id);
    [done |].
  rewrite Hreply, Z.eqb_refl.
  destruct (read_stats repr query_id (Ok (PDict data))) as [record | e] eqn:Hr.
  - intros _. by apply read_stats_fields in Hr.
  - by destruct e.
Qed.

(** C9: in a trial that the measurer produces, the source tag is
    ["REST API"] whenever the extractor's record is not empty, and
    ["client-only"] exactly when it is empty.  In particular a 200
    response whose statistics contain none of the candidate fields, and
    no output stage, gives a record that is not empty, with ["0ms"] for
    the CPU and the elapsed time: the trial carries the tag ["REST API"],
    its runtime is the client wall-clock duration and its CPU seconds
    and peak memory are [None]. *)
Theorem source_tag_follows_record :
  (∀ sql_query input_rows t trace,
     measurer sql_query input_rows = (Ok t, trace) →
     (server_stats t ≠ ∅ → stats_source t = PStr "REST API")
     ∧ (stats_source t = PStr "client-only" ↔ server_stats t = ∅))
  ∧ (∀ sql_query input_rows (data stats : gmap string pyval),
       Py.truthy (execute_and_fetch cursor sql_query).1.1 = true →
       Py.is_str "unknown" (execute_and_fetch cursor sql_query).1.1 = false →
       requests_get
         (api_url TRINO_CONFIG
            (str repr (execute_and_fetch cursor sql_query).1.1))
       = Reply 200 (Ok (PDict data)) →
       default (PDict ∅) (data !! "queryStats") = PDict stats →
       no_candidate_fields stats →
       data !! "outputStage" = None →
       fits_bigint input_rows →
       ∃ t trace,
         measurer sql_query input_rows = (Ok t, trace)
         ∧ server_stats t ≠ ∅
         ∧ server_stats t !! "cpu_time_str" = Some (PStr "0ms")
         ∧ server_stats t !! "elapsed_time_str" = Some (PStr "0ms")
         ∧ stats_source t = PStr "REST API"
         ∧ runtime_sec t = PFloat (end_time - start_time)
         ∧ cpu_seconds t = PNone
         ∧ peak_memory_mb t = PNone).
Proof.
  split.
  - intros sql_query input_rows t trace H.
    apply measurer_inv in H as (_ & _ & _ & Hcases).
    destruct Hcases as [(Hempty & _ & _ & _ & _ & Hsrc) | Hserver].
    + rewrite Hsrc, Hempty. done.
    + destruct Hserver
        as (cpu & mem & el & Hne & _ & _ & _ & _ & _ & _ & _ & _ & _ & Hsrc).
      rewrite Hsrc. split; [done |]. split; [discriminate | done].
  - intros sql_query input_rows data stats Hid Hknown Hreply Hstats Hnone
      Hstage Hfit.
    unfold measure_query_execution.
    destruct (execute_and_fetch cursor sql_query) as [[qid rows] st].
    cbn [fst] in *.
    destruct (read_stats_without_candidates qid data stats Hstats Hnone Hstage)
      as (record & Hread & Hne & Hcs & Hes & Hcpu & Hel & Hmem & Hrows & Hsrc).
    unfold get_query_stats_from_api.
    rewrite Hid, Hknown, Hreply. cbn [negb orb]. rewrite Z.eqb_refl, Hread.
    unfold reconcile. rewrite (truthy_nonempty_dict _ Hne).
    cbn [Py.get mbind result_bind]. rewrite Hcpu, Hmem, Hrows, Hel, Hsrc.
    unfold default. cbn [from_option id].
    change (Py.gt_zero (PFloat 0)) with (Ok false : result bool).
    change (Py.eq_zero (PFloat 0)) with true.
    cbn [Py.truthy Z.eqb negb mbind result_bind Py.eq_zero].
    destruct (throughput_of_baseline input_rows (end_time - start_time) Hfit)
      as [x ->].
    cbn [mbind result_bind].
    eexists _, _. split; [reflexivity |]. auto 10.
Qed.

(** C10: in every trial that the measurer produces, [query_id] is never
    [None]: it is the identifier captured from the cursor, and the
    string ["unavailable"] when the execution failed before one was
    captured, the cursor has no handle, or the handle holds a false
    value such as [None]. *)
Theorem query_id_never_null sql_query input_rows t trace :
  measurer sql_query input_rows = (Ok t, trace) →
  query_id t ≠ PNone
  ∧ Py.truthy (query_id t) = true
  ∧ match cursor sql_query with
    | ExecuteFails _ | FetchFails None _ | Fetched None _ =>
        query_id t = PStr "unavailable"
    | FetchFails (Some handle) _ | Fetched (Some handle) _ =>
        query_id t = if Py.truthy handle then handle else PStr "unavailable"
    end.
Proof.
  intros H. apply measurer_inv in H as (_ & _ & Hid & _).
  rewrite Hid. unfold execute_and_fetch, Py.por.
  destruct (cursor sql_query) as [msg | [handle|] msg | [handle|] rows];
    simpl; try done;
    destruct (Py.truthy handle) eqn:Hh; repeat split; try done;
    by intros ->.
Qed.

(** ** Further properties of the parsers *)

Lemma of_string_raises (s : string) (e : exn) :
  PyFloat.of_string s = Raise e → e = ValueError s.
Proof.
  unfold PyFloat.of_string. intros H.
  repeat case_match; congruence.
Qed.

(** X1: on every value each parser returns the int 0 or a float, or it
    raises [ValueError]; it raises nothing else. *)
Theorem parsers_return_number_or_value_error (v : pyval) :
  match parse_duration_to_seconds repr v with
  | Ok x => number_or_zero x
  | Raise e => ∃ arg, e = ValueError arg
  end
  ∧ match parse_memory_to_mb repr v with
    | Ok x => number_or_zero x
    | Raise e => ∃ arg, e = ValueError arg
    end.
Proof.
  assert (∀ (s : string) (k : float → result pyval) e,
            PyFloat.of_string s ≫= k = Raise e →
            (∀ x, k x ≠ Raise e) → ∃ arg, e = ValueError arg) as Hbind.
  { intros s k e H Hk. destruct (PyFloat.of_string s) as [x|e'] eqn:Hs.
    - by destruct (Hk x).
    - simpl in H. injection H as <-. apply of_string_raises in Hs. eauto. }
  split.
  - destruct (parse_duration_to_seconds repr v) as [x|e] eqn:H;
      [by eapply parse_duration_to_seconds_number |].
    unfold parse_duration_to_seconds in H.
    repeat case_match; try discriminate; by eapply Hbind.
  - destruct (parse_memory_to_mb repr v) as [x|e] eqn:H;
      [by eapply parse_memory_to_mb_number |].
    unfold parse_memory_to_mb in H.
    repeat case_match; try discriminate; by eapply Hbind.
Qed.

(** A string that contains [sub] after one more character contains
    [sub]. *)
Lemma contains_tail (a : ascii) (sub s : string) :
  PyStr.contains (String a sub) s = true → PyStr.contains sub s = true.
Proof.
  induction s as [| c s IH]; [done |].
  cbn [PyStr.contains]. intros [Hp | Hs]%orb_true_iff.
  - cbn [String.prefix] in Hp. destruct (ascii_dec a c); [| done].
    apply orb_true_iff. right.
    destruct s; simpl in *; rewrite Hp; done.
  - apply orb_true_iff. right. by apply IH.
Qed.

Lemma not_contains_longer (a : ascii) (sub s : string) :
  PyStr.contains sub s = false → PyStr.contains (String a sub) s = false.
Proof.
  intros H. destruct (PyStr.contains (String a sub) s) eqn:Hc; [| done].
  apply contains_tail in Hc. congruence.
Qed.

(** X2: a duration whose text, lower-cased and stripped, has no [s], no
    [m] and no final [n] carries none of the six units: the parser
    never raises on it, and returns the number when the text is one and
    the int 0 when it is not.  A memory size whose upper-cased text has
    no [B] is treated likewise, as a number of bytes. *)
Theorem parsers_degrade_without_unit (s : string) :
  (PyStr.contains "s" (PyStr.strip (PyStr.lower s)) = false →
   PyStr.contains "m" (PyStr.strip (PyStr.lower s)) = false →
   PyStr.endswith "n" (PyStr.strip (PyStr.lower s)) = false →
   parse_duration_to_seconds repr (PStr s)
   = match PyFloat.of_string (PyStr.strip (PyStr.lower s)) with
     | Ok x => Ok (PFloat x)
     | Raise _ => Ok (PInt 0)
     end)
  ∧ (PyStr.contains "B" (PyStr.upper s) = false →
     parse_memory_to_mb repr (PStr s)
     = match PyFloat.of_string (PyStr.upper s) with
       | Ok x => Ok (PFloat (x / 1048576))
       | Raise _ => Ok (PInt 0)
       end).
Proof.
  split.
  - intros Hs Hm Hn. unfold parse_duration_to_seconds. cbn [Py.truthy str].
    destruct (String.eqb_spec s "") as [-> | _]; [reflexivity |].
    cbn [negb].
    by rewrite !(not_contains_longer _ "s" _ Hs), Hn, Hs, Hm.
  - intros HB. unfold parse_memory_to_mb. cbn [Py.truthy str].
    destruct (String.eqb_spec s "") as [-> | _]; [reflexivity |].
    cbn [negb].
    by rewrite !(not_contains_longer _ "B" _ HB), HB.
Qed.

(** ** Further properties of the extractor *)

(** Everything that a returned record is made of. *)
Lemma read_stats_record query_id json record :
  read_stats repr query_id json = Ok record →
  ∃ (data : gmap string pyval) cpu cpu_sec el el_sec pm mb rows out,
    json = Ok (PDict data)
    ∧ parse_duration_to_seconds repr cpu = Ok cpu_sec
    ∧ parse_duration_to_seconds repr el = Ok el_sec
    ∧ (if Py.truthy pm then parse_memory_to_mb repr pm else Ok (PInt 0)) = Ok mb
    ∧ record
      = <["query_id" := query_id]>
        (<["state" := default (PStr "UNKNOWN") (data !! "state")]>
        (<["cpu_time_str" := cpu]>
        (<["cpu_time_sec" := cpu_sec]>
        (<["elapsed_time_str" := el]>
        (<["elapsed_time_sec" := el_sec]>
        (<["peak_memory_str" := if Py.truthy pm then pm else PNone]>
        (<["peak_memory_mb" := mb]>
        (<["physical_input_rows" := rows]>
        (<["output_rows" := out]>
        (<["source" := PStr "REST API"]> ∅)))))))))).
Proof.
  unfold read_stats. intros H.
  destruct json as [body | e]; [| discriminate]. cbn [mbind result_bind] in H.
  destruct body as [| | | | | | data]; try discriminate.
  cbn [Py.get mbind result_bind] in H.
  apply bind_Ok in H as (cpu & _ & H).
  apply bind_Ok in H as (el & _ & H).
  apply bind_Ok in H as (pm0 & _ & H).
  apply bind_Ok in H as (pm & _ & H).
  apply bind_Ok in H as (mb & Hmb & H).
  apply bind_Ok in H as (rows & _ & H).
  apply bind_Ok in H as (out & _ & H).
  apply bind_Ok in H as (cpu_sec & Hcpu & H).
  apply bind_Ok in H as (el_sec & Hel & H).
  injection H as <-.
  exists data, cpu, cpu_sec, el, el_sec, pm, mb, rows, out. auto 10.
Qed.


(** A record that is not empty was read from a 200 response. *)
Lemma extractor_record (query_id : pyval) :
  (extractor query_id).1 ≠ ∅ →
  ∃ json,
    requests_get (api_url TRINO_CONFIG (str repr query_id)) = Reply 200 json
    ∧ read_stats repr query_id json = Ok (extractor query_id).1.
Proof.
  unfold get_query_stats_from_api.
  destruct (negb (Py.truthy query_id) || Py.is_str "unknown" query_id);
    [done |].
  destruct (requests_get _) as [msg | status_code json]; [done |].
  destruct (Z.eqb_spec status_code 200) as [-> | _];
    [| by destruct (status_code =? 401)].
  destruct (read_stats repr query_id json) as [record | e] eqn:Hr;
    [eauto | by destruct e].
Qed.

(** X4: a record that the extractor returns is empty or has exactly the
    eleven keys of the dict literal.  When it is not empty the endpoint
    answered 200 with a JSON object, the record carries the identifier
    it was asked for and the source tag ["REST API"], and its state is
    the state of the body, ["UNKNOWN"] when the body has none. *)
Theorem extractor_record_keys (query_id : pyval) :
  (extractor query_id).1 ≠ ∅ →
  dom (extractor query_id).1 = record_keys
  ∧ (extractor query_id).1 !! "query_id" = Some query_id
  ∧ (extractor query_id).1 !! "source" = Some (PStr "REST API")
  ∧ ∃ data : gmap string pyval,
      requests_get (api_url TRINO_CONFIG (str repr query_id))
      = Reply 200 (Ok (PDict data))
      ∧ (extractor query_id).1 !! "state"
        = Some (default (PStr "UNKNOWN") (data !! "state")).
Proof.
  intros Hne. destruct (extractor_record query_id Hne) as (json & Hreply & Hr).
  apply read_stats_record in Hr
    as (data & cpu & cpu_sec & el & el_sec & pm & mb & rows & out
        & -> & _ & _ & _ & ->).
  split; [| by eauto].
  rewrite !dom_insert_L, dom_empty_L. unfold record_keys. set_solver.
Qed.

(** X5: in a record that the extractor returns, the seconds and the
    megabytes are the parsers' results on the raw strings kept beside
    them: [cpu_time_sec] and [elapsed_time_sec] are the duration
    parser's values of [cpu_time_str] and [elapsed_time_str];
    [peak_memory_mb] is the memory parser's value of [peak_memory_str],
    and the int 0 when that is [None]. *)
Theorem extractor_parses_raw_strings (query_id : pyval) :
  (extractor query_id).1 ≠ ∅ →
  ∃ cpu cpu_sec el el_sec mem mb,
    (extractor query_id).1 !! "cpu_time_str" = Some cpu
    ∧ (extractor query_id).1 !! "cpu_time_sec" = Some cpu_sec
    ∧ parse_duration_to_seconds repr cpu = Ok cpu_sec
    ∧ (extractor query_id).1 !! "elapsed_time_str" = Some el
    ∧ (extractor query_id).1 !! "elapsed_time_sec" = Some el_sec
    ∧ parse_duration_to_seconds repr el = Ok el_sec
    ∧ (extractor query_id).1 !! "peak_memory_str" = Some mem
    ∧ (extractor query_id).1 !! "peak_memory_mb" = Some mb
    ∧ (if Py.truthy mem then parse_memory_to_mb repr mem = Ok mb
       else mem = PNone ∧ mb = PInt 0).
Proof.
  intros Hne. destruct (extractor_record query_id Hne) as (json & _ & Hr).
  apply read_stats_record in Hr
    as (data & cpu & cpu_sec & el & el_sec & pm & mb & rows & out
        & _ & Hcpu & Hel & Hmb & ->).
  exists cpu, cpu_sec, el, el_sec, (if Py.truthy pm then pm else PNone), mb.
  repeat (split; [done |]).
  destruct (Py.truthy pm) eqn:Hpm; [by rewrite Hpm |].
  injection Hmb as <-. done.
Qed.

(** X6: a 200 response whose body is not a JSON object, or whose
    [queryStats] is present but not an object ([null] included), gives
    no record at all: the extractor returns the empty dict and prints
    the warning of an [AttributeError]. *)
Theorem extractor_rejects_non_objects (query_id body : pyval) :
  requestable query_id = true →
  requests_get (api_url TRINO_CONFIG (str repr query_id)) = Reply 200 (Ok body) →
  not_object body
  ∨ (∃ (data : gmap string pyval) stats,
       body = PDict data
       ∧ data !! "queryStats" = Some stats
       ∧ not_object stats) →
  extractor query_id
  = (∅, [HttpGet (api_url TRINO_CONFIG (str repr query_id))
           (user TRINO_CONFIG) 10;
         Print (WarnParsing AttributeError)]).
Proof.
  unfold requestable. intros [Hid Hknown%negb_true_iff]%andb_true_iff Hreply Hbody.
  unfold get_query_stats_from_api.
  rewrite Hid, Hknown, Hreply. cbn [negb orb]. rewrite Z.eqb_refl.
  assert (read_stats repr query_id (Ok body) = Raise AttributeError) as ->;
    [| reflexivity].
  unfold read_stats. cbn [mbind result_bind].
  destruct Hbody as [Hbody | (data & stats & -> & Hstats & Hno)].
  - by destruct body.
  - cbn [Py.get mbind result_bind]. rewrite Hstats. by destruct stats.
Qed.

(** X7: one unparsable duration loses the whole record.  On a 200
    response with a JSON object, when the duration parser raises on the
    CPU time or on the elapsed time that the field probing selects, the
    extractor returns the empty dict, whatever the other fields hold. *)
Theorem extractor_drops_record_on_bad_duration query_id
    (data stats : gmap string pyval) :
  requests_get (api_url TRINO_CONFIG (str repr query_id))
  = Reply 200 (Ok (PDict data)) →
  default (PDict ∅) (data !! "queryStats") = PDict stats →
  (∃ e, parse_duration_to_seconds repr
          (default (PStr "0ms") (first_truthy cpu_fields stats)) = Raise e)
  ∨ (∃ e, parse_duration_to_seconds repr
            (default (PStr "0ms") (first_truthy elapsed_fields stats)) = Raise e) →
  (extractor query_id).1 = ∅.
Proof.
  intros Hreply Hstats Hbad.
  destruct (decide ((extractor query_id).1 = ∅)) as [| Hne]; [done |].
  exfalso.
  destruct (extractor_record query_id Hne) as (json & Hreply' & Hr).
  rewrite Hreply in Hreply'. injection Hreply' as <-.
  destruct (read_stats_fields query_id data _ Hr)
    as (stats' & Hstats' & Hcpu_str & Hel_str & _).
  rewrite Hstats in Hstats'. injection Hstats' as <-.
  destruct (extractor_parses_raw_strings query_id Hne)
    as (cpu & cpu_sec & el & el_sec & mem & mb
        & Hc & _ & Pc & He & _ & Pe & _).
  destruct Hbad as [[e Hbad] | [e Hbad]]; congruence.
Qed.

(** ** Further properties of the measurer *)

(** What a produced trial is made of. *)
Lemma measurer_trial sql_query input_rows t trace :
  measurer sql_query input_rows = (Ok t, trace) →
  trace = (extractor (execute_and_fetch cursor sql_query).1.1).2
  ∧ server_stats t = (extractor (execute_and_fetch cursor sql_query).1.1).1
  ∧ rows_returned t = PInt (execute_and_fetch cursor sql_query).1.2
  ∧ status t = PStr (execute_and_fetch cursor sql_query).2
  ∧ reconcile (server_stats t) input_rows (PFloat (end_time - start_time))
    = Ok (cpu_seconds t, peak_memory_mb t, input_rows_processed t,
          runtime_sec t, stats_source t)
  ∧ throughput (input_rows_processed t) (runtime_sec t)
    = Ok (throughput_input_rows_per_sec t).
Proof.
  unfold measure_query_execution. intros H.
  destruct (execute_and_fetch cursor sql_query) as [[qid rows] st].
  cbn [fst snd].
  destruct (extractor qid) as [stats tr]. cbn [fst snd].
  injection H as H <-.
  apply bind_Ok in H as ([[[[c m] p] r] s] & Hrec & H).
  apply bind_Ok in H as (x & Hthr & H).
  injection H as <-. cbn. auto 10.
Qed.

(** The measurer returns what the reconciliation and the throughput
    give, with the trace of the extractor. *)
Lemma measurer_outcome sql_query input_rows :
  ∃ stats rows st,
    (extractor (execute_and_fetch cursor sql_query).1.1).1 = stats
    ∧ (measurer sql_query input_rows).1
      = ('(c, m, p, r, s) ←
           reconcile stats input_rows (PFloat (end_time - start_time));
         x ← throughput p r;
         Ok {| runtime_sec := r;
               client_runtime_sec := PFloat (end_time - start_time);
               rows_returned := PInt rows;
               input_rows_processed := p;
               throughput_input_rows_per_sec := x;
               cpu_seconds := c;
               peak_memory_mb := m;
               status := PStr st;
               query_id :=
                 Py.por (execute_and_fetch cursor sql_query).1.1
                   (PStr "unavailable");
               stats_source := s;
               server_stats := stats |}).
Proof.
  unfold measure_query_execution.
  destruct (execute_and_fetch cursor sql_query) as [[qid rows] st].
  cbn [fst snd].
  destruct (extractor qid) as [stats tr]. cbn [fst snd].
  by exists stats, rows, st.
Qed.

(** The reconciliation of an extractor record: it fails only on the
    comparison of the input row count with 0; otherwise the runtime is a
    float and the processed rows are the positive row count of the
    record or the baseline. *)
Lemma reconcile_extractor_record query_id input_rows (client : float) :
  match reconcile (extractor query_id).1 input_rows (PFloat client) with
  | Ok (c, m, p, r, s) =>
      (∃ f, r = PFloat f)
      ∧ ((∃ v, (extractor query_id).1 !! "physical_input_rows" = Some v
               ∧ Py.truthy v = true ∧ Py.gt_zero v = Ok true ∧ p = v)
         ∨ ((∀ v, (extractor query_id).1 !! "physical_input_rows" = Some v →
                  Py.truthy v = false ∨ Py.gt_zero v = Ok false)
            ∧ p = PInt (default 0 input_rows)))
  | Raise e =>
      e = TypeError
      ∧ ∃ v, (extractor query_id).1 !! "physical_input_rows" = Some v
             ∧ Py.truthy v = true ∧ Py.gt_zero v = Raise TypeError
  end.
Proof.
  unfold reconcile.
  destruct (extractor_cases query_id) as [-> | [json Hjson]].
  - rewrite truthy_empty_dict, baseline_or_zero. split; [eauto |].
    right. split; [| done]. intros v. by rewrite lookup_empty.
  - apply read_stats_shape in Hjson
      as (Hne & Hsrc & (cpu & Hcpu & Ncpu) & (el & Hel & Nel)
          & (mem & Hmem & Nmem) & (rws & Hrws)).
    rewrite (truthy_nonempty_dict _ Hne). cbn [Py.get mbind result_bind].
    rewrite Hcpu, Hmem, Hrws, Hel, Hsrc, baseline_or_zero.
    unfold default. cbn [from_option id].
    assert (∃ b, Py.gt_zero el = Ok b
                 ∧ ∃ f, (if b then el else PFloat client) = PFloat f)
      as (b & -> & Hrun).
    { destruct Nel as [-> | [f ->]]; simpl; [eauto |].
      destruct (0 <? f)%float; eauto. }
    destruct (Py.truthy rws) eqn:Trws.
    + destruct (Py.gt_zero rws) as [[] | e] eqn:Grws; cbn [mbind result_bind].
      * split; [done |]. left. by exists rws.
      * split; [done |]. right. split; [| done].
        intros v [= <-]. eauto.
      * assert (e = TypeError) as ->
          by (destruct rws; simpl in Grws; congruence).
        split; [done |]. by exists rws.
    + cbn [mbind result_bind]. split; [done |]. right.
      split; [| done]. intros v [= <-]. eauto.
Qed.

(** The throughput over a float runtime: the remaining failures are the
    comparison of a value that is not a number with 0, and an int too
    large for a float. *)
Lemma throughput_over_float (p : pyval) (r : float) :
  match throughput p (PFloat r) with
  | Ok x => x = PInt 0 ∨ ∃ f, x = PFloat f
  | Raise e =>
      (e = TypeError ∧ Py.truthy p = true ∧ Py.gt_zero p = Raise TypeError)
      ∨ (e = OverflowError
         ∧ ∃ z, p = PInt z ∧ PyFloat.of_int z = Raise OverflowError)
  end.
Proof.
  unfold throughput.
  destruct (Py.truthy p) eqn:Tp; cbn [mbind result_bind]; [| by left].
  destruct (Py.gt_zero p) as [[] | e] eqn:Gp; cbn [mbind result_bind];
    [| by left | left; destruct p; simpl in Gp; by simplify_eq].
  change (Py.gt_zero (PFloat r)) with (Ok (0 <? r)%float : result bool).
  destruct (0 <? r)%float eqn:Hr; cbn [mbind result_bind]; [| by left].
  apply positive_float_nonzero in Hr.
  destruct p as [| [] | z | f | | |]; try discriminate;
    unfold Py.truediv; cbn [Py.as_int Py.to_float mbind result_bind].
  - change (PyFloat.of_int 1) with (Ok 1%float : result float).
    cbn [mbind result_bind]. rewrite Hr. eauto.
  - destruct (PyFloat.of_int z) as [f | e] eqn:Hz; cbn [mbind result_bind].
    + rewrite Hr. eauto.
    + right. unfold PyFloat.of_int in Hz.
      destruct (_ <=? _) eqn:Hbig; [| discriminate].
      injection Hz as <-. split; [done |]. exists z. split; [done |].
      unfold PyFloat.of_int. by rewrite Hbig.
  - rewrite Hr. eauto.
Qed.

(** X8: the throughput is never a division by zero.  Over a float
    runtime, which is what the measurer always has, the throughput of
    any value is the int 0 or a float, or the computation raises
    [TypeError] (the rows are not a number) or [OverflowError] (an int
    too large for a float); in particular rows or a runtime that are not
    positive give 0. *)
Theorem throughput_never_divides_by_zero (p : pyval) (r : float) :
  match throughput p (PFloat r) with
  | Ok x => x = PInt 0 ∨ ∃ f, x = PFloat f
  | Raise e => e = TypeError ∨ e = OverflowError
  end
  ∧ ((0 <? r)%float = false → Py.gt_zero p ≠ Raise TypeError →
     throughput p (PFloat r) = Ok (PInt 0)).
Proof.
  split.
  - pose proof (throughput_over_float p r) as H.
    destruct (throughput p (PFloat r)) as [x | e]; [done |].
    destruct H as [[-> _] | [-> _]]; eauto.
  - intros Hr Hp. unfold throughput.
    destruct (Py.truthy p); [| done].
    destruct (Py.gt_zero p) as [[] | e] eqn:Gp; cbn [mbind result_bind].
    + change (Py.gt_zero (PFloat r)) with (Ok (0 <? r)%float : result bool).
      by rewrite Hr.
    + done.
    + destruct p; simpl in Gp; congruence.
Qed.

(** X9: in every trial that the measurer produces, the processed rows
    are the [physical_input_rows] of the extractor's record when that
    value is true and greater than 0, and the baseline estimate (0 when
    there is none) in every other case; and the throughput is the int 0
    or a float. *)
Theorem processed_rows_from_one_source sql_query input_rows t trace :
  measurer sql_query input_rows = (Ok t, trace) →
  ((∃ v, server_stats t !! "physical_input_rows" = Some v
         ∧ Py.truthy v = true
         ∧ Py.gt_zero v = Ok true
         ∧ input_rows_processed t = v)
   ∨ ((∀ v, server_stats t !! "physical_input_rows" = Some v →
            Py.truthy v = false ∨ Py.gt_zero v = Ok false)
      ∧ input_rows_processed t = PInt (default 0 input_rows)))
  ∧ (throughput_input_rows_per_sec t = PInt 0
     ∨ ∃ f, throughput_input_rows_per_sec t = PFloat f).
Proof.
  intros H. apply measurer_trial in H as (_ & Hstats & _ & _ & Hrec & Hthr).
  pose proof (reconcile_extractor_record
                (execute_and_fetch cursor sql_query).1.1 input_rows
                (end_time - start_time)) as Hr.
  rewrite <- Hstats, Hrec in Hr. destruct Hr as [[f Hf] Hrows].
  split; [done |].
  pose proof (throughput_over_float (input_rows_processed t) f) as Hx.
  rewrite <- Hf, Hthr in Hx. done.
Qed.


(** X10: a failing query is recorded, not raised.  In every trial that
    the measurer produces the status is ["SUCCESS"] with the number of
    fetched rows when the cursor returned its rows, and ["ERROR: "]
    followed by the message with 0 rows when [execute] or [fetchall]
    raised.  When [execute] itself raised, no identifier was captured:
    the trace is empty (no HTTP request), the record is empty and the
    source tag is ["client-only"]. *)
Theorem execution_outcome_recorded sql_query input_rows t trace :
  measure_query_execution repr TRINO_CONFIG requests_get
    start_time end_time cursor sql_query input_rows = (Ok t, trace) →
  match cursor sql_query with
  | Fetched _ rows =>
      status t = PStr "SUCCESS" ∧ rows_returned t = PInt (Z.of_nat rows)
  | FetchFails _ msg =>
      status t = PStr ("ERROR: " ++ msg) ∧ rows_returned t = PInt 0
  | ExecuteFails msg =>
      status t = PStr ("ERROR: " ++ msg) ∧ rows_returned t = PInt 0
      ∧ trace = []
      ∧ server_stats t = ∅
      ∧ stats_source t = PStr "client-only"
  end.
Proof.
  intros H. apply measurer_trial in H as (Htr & Hstats & Hrows & Hst & Hrec & _).
  unfold execute_and_fetch in *.
  destruct (cursor sql_query) as [msg | handle msg | handle rows];
    cbn [fst snd] in *; try done.
  rewrite Htr, Hstats. repeat (split; [done |]).
  rewrite Hstats in Hrec. unfold reconcile in Hrec.
  change (extractor PNone) with ((∅, []) : gmap string pyval * list event)
    in Hrec.
  cbn [fst] in Hrec. rewrite truthy_empty_dict in Hrec. by injection Hrec.
Qed.


(** How the measurer can fail: on the comparison of the record's input
    row count with 0, or on the conversion of the processed row count,
    from the record or from the baseline, to a float. *)
Lemma measurer_failure sql_query input_rows :
  match (measurer sql_query input_rows).1 with
  | Ok _ => True
  | Raise e =>
      (e = TypeError
       ∧ ∃ v, (extractor (execute_and_fetch cursor sql_query).1.1).1
              !! "physical_input_rows" = Some v
              ∧ Py.truthy v = true
              ∧ Py.gt_zero v = Raise TypeError)
      ∨ (e = OverflowError
         ∧ ∃ z, PyFloat.of_int z = Raise OverflowError
                ∧ ((extractor (execute_and_fetch cursor sql_query).1.1).1
                   !! "physical_input_rows" = Some (PInt z)
                   ∨ z = default 0 input_rows))
  end.
Proof.
  destruct (measurer_outcome sql_query input_rows)
    as (stats & rows & st & Hstats & ->).
  pose proof (reconcile_extractor_record
                (execute_and_fetch cursor sql_query).1.1 input_rows
                (end_time - start_time)) as Hr.
  rewrite Hstats in Hr. rewrite Hstats.
  destruct (reconcile stats input_rows _) as [[[[[c m] p] r] s] | e];
    cbn [mbind result_bind]; [| by left].
  destruct Hr as [[f ->] Hp].
  pose proof (throughput_over_float p f) as Hx.
  destruct (throughput p (PFloat f)) as [x | e]; cbn [mbind result_bind];
    [done |].
  destruct Hx as [(-> & Tp & Gp) | (-> & z & -> & Hz)].
  - exfalso. destruct Hp as [(v & _ & _ & Gv & ->) | [_ ->]];
      [congruence | discriminate].
  - right. split; [done |]. exists z. split; [done |].
    destruct Hp as [(v & Hv & _ & _ & <-) | [_ [= ->]]]; eauto.
Qed.

(** X12: the measurer fails in two ways only.  It raises [TypeError]
    when the record's [physical_input_rows] is a true value that cannot
    be compared with 0 (a JSON string, array or object), and
    [OverflowError] when the processed row count is an int too large
    for a float; a failing query, a failing request and an unreadable
    response never make it raise. *)
Theorem measurer_raises_only_on_row_count sql_query input_rows :
  match (measurer sql_query input_rows).1 with
  | Ok _ => True
  | Raise e =>
      (e = TypeError
       ∧ ∃ v, (extractor (execute_and_fetch cursor sql_query).1.1).1
              !! "physical_input_rows" = Some v
              ∧ Py.truthy v = true
              ∧ Py.gt_zero v = Raise TypeError)
      ∨ (e = OverflowError
         ∧ ∃ z, 2 ^ 1024 - 2 ^ 970 ≤ Z.abs z
                ∧ ((extractor (execute_and_fetch cursor sql_query).1.1).1
                   !! "physical_input_rows" = Some (PInt z)
                   ∨ input_rows = Some z))
  end.
Proof.
  pose proof (measurer_failure sql_query input_rows) as H.
  destruct (measurer sql_query input_rows).1 as [t | e]; [done |].
  destruct H as [H | (-> & z & Hz & Hfrom)]; [by left |].
  right. split; [done |]. exists z.
  assert (2 ^ 1024 - 2 ^ 970 ≤ Z.abs z) as Hbig.
  { unfold PyFloat.of_int in Hz.
    destruct (Z.leb_spec (2 ^ 1024 - 2 ^ 970) (Z.abs z)); [done | discriminate]. }
  split; [done |].
  destruct Hfrom as [| ->]; [by left |].
  right. destruct input_rows as [n|]; [done |].
  exfalso. simpl in Hbig.
  assert (0 < 2 ^ 1024 - 2 ^ 970) by reflexivity. lia.
Qed.

(** X13: the measurer produces a trial whatever the cursor and the
    endpoint do, as long as the row counts are numbers: the baseline is
    [None] or a 64-bit int, and the record's [physical_input_rows], when
    the extractor returns a record, is a JSON number, an int within 64
    bits. *)
Theorem measurer_produces_trial sql_query input_rows :
  fits_bigint input_rows →
  (∀ v, (extractor (execute_and_fetch cursor sql_query).1.1).1
        !! "physical_input_rows" = Some v → row_count v) →
  ∃ t trace, measurer sql_query input_rows = (Ok t, trace).
Proof.
  intros Hfit Hrows.
  pose proof (measurer_failure sql_query input_rows) as H.
  destruct (measurer sql_query input_rows) as [[t | e] trace] eqn:Hm;
    [eauto |].
  exfalso. cbn [fst] in H.
  destruct H as [(-> & v & Hv & _ & Gv) | (-> & z & Hz & Hfrom)].
  - apply Hrows in Hv. by destruct v.
  - assert (- 2 ^ 63 ≤ z < 2 ^ 63) as Hin.
    { destruct Hfrom as [Hv | ->]; [by apply Hrows in Hv |].
      destruct input_rows as [n|]; simpl in *; [done |].
      split; [by apply Z.lt_le_incl |]; reflexivity. }
    destruct (of_int_bigint z Hin) as [f Hf]. congruence.
Qed.

Lemma measurer_trial_numbers sql_query input_rows t trace :
  measurer sql_query input_rows = (Ok t, trace) → trial_of_measurer t.
Proof.
  intros H. pose proof (measurer_inv _ _ _ _ H) as (_ & _ & _ & Hcases).
  apply measurer_trial in H as (_ & Hstats & _ & _ & Hrec & Hthr).
  pose proof (reconcile_extractor_record
                (execute_and_fetch cursor sql_query).1.1 input_rows
                (end_time - start_time)) as Hr.
  rewrite <- Hstats, Hrec in Hr. destruct Hr as [[f Hf] _].
  pose proof (throughput_over_float (input_rows_processed t) f) as Hx.
  rewrite <- Hf, Hthr in Hx.
  assert (∀ v, number_or_zero v →
               (if Py.eq_zero v then PNone else v) = PNone
               ∨ ∃ g, (if Py.eq_zero v then PNone else v) = PFloat g) as Hnum.
  { intros v [-> | [g ->]]; [by left |].
    simpl. destruct (g =? 0)%float; eauto. }
  unfold trial_of_measurer. split; [eauto |].
  destruct Hcases as [(_ & -> & -> & _) | Hserver]; [auto |].
  destruct Hserver
    as (cpu & mem & el & _ & _ & Ncpu & _ & Nmem & _ & _ & -> & -> & _).
  auto.
Qed.

End Properties.

(** * Properties of the measurement loop *)

(** ** The statement of a query file *)

Lemma rstrip_by_last (p : ascii → bool) (c : ascii) (s : string) :
  PyStr.endswith (String c "") (PyStr.rstrip_by p s) = true → p c = false.
Proof.
  induction s as [| a s IH]; [done |]. cbn [PyStr.rstrip_by].
  destruct (PyStr.rstrip_by p s) as [| b r] eqn:Hr.
  - destruct (p a) eqn:Ha; [done |]. cbn [PyStr.endswith].
    intros [He | He]%orb_true_iff; [| done].
    apply String.eqb_eq in He. congruence.
  - cbn [PyStr.endswith].
    intros [He | He]%orb_true_iff; [| by apply IH].
    apply String.eqb_eq in He. discriminate.
Qed.

Lemma rstrip_by_head (p : ascii → bool) (a : ascii) (s : string) :
  PyStr.rstrip_by p (String a s) = ""
  ∨ ∃ r, PyStr.rstrip_by p (String a s) = String a r.
Proof.
  cbn [PyStr.rstrip_by].
  destruct (PyStr.rstrip_by p s); [destruct (p a) |]; eauto.
Qed.

Lemma lstrip_by_head (p : ascii → bool) (s : string) :
  match PyStr.lstrip_by p s with
  | String c _ => p c = false
  | EmptyString => True
  end.
Proof.
  induction s as [| a s IH]; [done |]. simpl.
  destruct (p a) eqn:Ha; [done | by simpl].
Qed.

(** X14: the statement that [run_benchmark] reads from a query file
    never ends with a semicolon and never starts with white space,
    whatever the file holds. *)
Theorem read_query_clean (text : string) :
  PyStr.endswith ";" (read_query text) = false
  ∧ match read_query text with
    | String c _ => PyStr.is_space c = false
    | EmptyString => True
    end.
Proof.
  unfold read_query, PyStr.rstrip. split.
  - destruct (PyStr.endswith ";" _) eqn:He; [| done].
    apply rstrip_by_last in He. by vm_compute in He.
  - unfold PyStr.strip, PyStr.strip_by.
    pose proof (lstrip_by_head PyStr.is_space text) as Hhead.
    destruct (PyStr.lstrip_by PyStr.is_space text) as [| a s]; [done |].
    destruct (rstrip_by_head PyStr.is_space a s) as [-> | [r ->]]; [done |].
    by destruct (rstrip_by_head
                   (λ c, existsb (Ascii.eqb c) (list_ascii_of_string ";")) a r)
      as [-> | [r' ->]].
Qed.

Section DriverProperties.

Variable repr : pyval -> string.
Variable TRINO_CONFIG : config.
Variable world : nat -> moment.
Variable q_file sql_query : string.
Variable input_rows : option Z.

Local Abbreviation measure_at' :=
  (measure_at repr TRINO_CONFIG world sql_query input_rows).
Local Abbreviation iterations :=
  (measurement_iterations repr TRINO_CONFIG world q_file sql_query input_rows).

Local Abbreviation produce :=
  (produce repr TRINO_CONFIG world sql_query input_rows).

(** The loop body on a trial of the measurer: it does not raise, and it
    appends the samples of a successful run. *)
Lemma record_trial_samples (i : nat) (t : trial) (acc : samples) :
  trial_of_measurer t →
  ∃ line,
    record_trial i t acc
    = Ok (if successful t then
            {| runtimes := runtimes acc ++ [runtime_sec t];
               throughputs := throughputs acc ++ [throughput_input_rows_per_sec t];
               cpu_times :=
                 cpu_times acc ++ List.filter positive_float [cpu_seconds t];
               memories :=
                 memories acc ++ List.filter positive_float [peak_memory_mb t] |}
          else acc,
          line).
Proof.
  intros ([r Hr] & Hcpu & Hmem & Hthr).
  unfold record_trial, successful.
  destruct (Py.is_str "SUCCESS" (status t)); [| eauto].
  assert (∀ v, v = PNone ∨ (∃ f, v = PFloat f) →
               measured v = Ok (positive_float v)
               ∧ (if positive_float v then format_fixed v else Ok tt) = Ok tt)
    as Hshown.
  { intros v [-> | [f ->]]; [done |]. simpl. by destruct (0 <? f)%float. }
  destruct (Hshown _ Hcpu) as [Mcpu Fcpu], (Hshown _ Hmem) as [Mmem Fmem].
  assert (∃ b, Py.gt_zero (throughput_input_rows_per_sec t) = Ok b
               ∧ (if b then format_fixed (throughput_input_rows_per_sec t)
                  else Ok tt) = Ok tt) as (b & Gthr & Fthr).
  { destruct Hthr as [-> | [f ->]]; simpl;
      [by exists false | exists (0 <? f)%float; by destruct (0 <? f)%float]. }
  rewrite Mcpu, Mmem. cbn [mbind result_bind].
  assert (format_fixed (runtime_sec t) = Ok tt) as -> by (by rewrite Hr).
  cbn [mbind result_bind].
  rewrite Gthr. cbn [mbind result_bind].
  rewrite Fthr, Fcpu, Fmem. cbn [mbind result_bind].
  eexists. do 2 f_equal.
  cbn [List.filter].
  destruct (positive_float (cpu_seconds t)),
    (positive_float (peak_memory_mb t)); by rewrite ?app_nil_r.
Qed.

(** The loop as a map and a filter over the trials of its iterations. *)
Lemma iterations_samples (indices : list nat) (trials : list trial)
    (acc : samples) :
  produce indices trials →
  csv_rows (iterations indices acc) = zip_with (csv_row q_file) indices trials
  ∧ length (console (iterations indices acc)) = length indices
  ∧ outcome (iterations indices acc)
    = Ok {| runtimes :=
              runtimes acc ++ map runtime_sec (List.filter successful trials);
            throughputs :=
              throughputs acc
              ++ map throughput_input_rows_per_sec
                   (List.filter successful trials);
            cpu_times :=
              cpu_times acc
              ++ List.filter positive_float
                   (map cpu_seconds (List.filter successful trials));
            memories :=
              memories acc
              ++ List.filter positive_float
                   (map peak_memory_mb (List.filter successful trials)) |}.
Proof.
  intros Hproduce. revert acc.
  induction Hproduce as [| i t indices trials [trace Hi] _ IH]; intros acc.
  - simpl. rewrite !app_nil_r. by destruct acc.
  - cbn [measurement_iterations]. rewrite Hi.
    apply measurer_trial_numbers in Hi.
    destruct (record_trial_samples i t acc Hi) as [line ->].
    cbn [csv_rows console outcome zip_with length].
    match goal with
    | |- context [measurement_iterations _ _ _ _ _ _ indices ?a] =>
        destruct (IH a) as (-> & -> & ->)
    end.
    split; [done |]. split; [done |]. f_equal.
    cbn [List.filter]. destruct (successful t); [| done].
    cbn [runtimes throughputs cpu_times memories map List.filter].
    f_equal; rewrite <- ?app_assoc; try done;
      by destruct (positive_float _).
Qed.

(** X15: when every iteration of a pattern produces a trial, the loop
    runs to its end and writes exactly one CSV row per iteration, in
    order and numbered from 1, for the failed runs as for the
    successful ones; and it prints one line per iteration. *)
Theorem one_csv_row_per_iteration (trials : list trial) :
  produce (seq 0 ITERATIONS) trials →
  csv_rows (measurement_runs repr TRINO_CONFIG world q_file sql_query input_rows)
  = zip_with (csv_row q_file) (seq 0 ITERATIONS) trials
  ∧ length
      (csv_rows
         (measurement_runs repr TRINO_CONFIG world q_file sql_query input_rows))
    = ITERATIONS
  ∧ length
      (console
         (measurement_runs repr TRINO_CONFIG world q_file sql_query input_rows))
    = ITERATIONS
  ∧ ∃ s,
      outcome
        (measurement_runs repr TRINO_CONFIG world q_file sql_query input_rows)
      = Ok s.
Proof.
  intros Hproduce. unfold measurement_runs.
  destruct (iterations_samples _ _ no_samples Hproduce) as (Hrows & Hlines & Hs).
  split; [done |]. split; [| split; [by rewrite Hlines, length_seq | eauto]].
  rewrite Hrows, length_zip_with, length_seq.
  apply Forall2_length in Hproduce. rewrite length_seq in Hproduce. lia.
Qed.


Lemma iterations_crash (pre post : list nat) (i : nat) (trials : list trial)
    (acc : samples) (e : exn) :
  produce pre trials →
  (measure_at' i).1 = Raise e →
  csv_rows (iterations (pre ++ i :: post) acc)
  = zip_with (csv_row q_file) pre trials
  ∧ outcome (iterations (pre ++ i :: post) acc) = Raise e.
Proof.
  intros Hproduce Hraise. revert acc.
  induction Hproduce as [| j t indices ts [trace Hj] _ IH]; intros acc.
  - cbn [app measurement_iterations].
    destruct (measure_at' i) as [[t | e'] trace]; simpl in Hraise; [done |].
    by injection Hraise as ->.
  - cbn [app measurement_iterations]. rewrite Hj.
    apply measurer_trial_numbers in Hj.
    destruct (record_trial_samples j t acc Hj) as [line ->].
    cbn [csv_rows outcome zip_with].
    match goal with
    | |- context [measurement_iterations _ _ _ _ _ _ _ ?a] =>
        by destruct (IH a) as [-> ->]
    end.
Qed.

(** X17: rows written before a crash stay in the file.  When the
    iterations before [i] produce trials and the measurer raises in
    iteration [i], the run ends with that exception, and the CSV file
    holds exactly the rows of the iterations before [i]: none is lost,
    none is written for [i] or later. *)
Theorem rows_survive_a_crash (i : nat) (trials : list trial) (e : exn) :
  (i < ITERATIONS)%nat →
  produce (seq 0 i) trials →
  (measure_at' i).1 = Raise e →
  csv_rows (measurement_runs repr TRINO_CONFIG world q_file sql_query input_rows)
  = zip_with (csv_row q_file) (seq 0 i) trials
  ∧ outcome
      (measurement_runs repr TRINO_CONFIG world q_file sql_query input_rows)
    = Raise e.
Proof.
  intros Hi Hproduce Hraise. unfold measurement_runs.
  assert (seq 0 ITERATIONS
          = (seq 0 i ++ i :: seq (S i) (ITERATIONS - S i))%list) as ->.
  { replace ITERATIONS with (i + S (ITERATIONS - S i))%nat at 1 by lia.
    by rewrite seq_app. }
  by apply iterations_crash.
Qed.

End DriverProperties.

(** ** Numbers given where a string with a unit is expected *)

Lemma all_chars_occurs (q : ascii → bool) (c : ascii) (s : string) :
  all_chars q s = true → occurs c s = true → q c = true.
Proof.
  induction s as [| a s IH]; [done |].
  cbn [all_chars]. rewrite occurs_cons.
  intros [Ha Hs]%andb_true_iff.
  destruct (Ascii.eqb_spec a c) as [<- | _]; [done | by apply IH].
Qed.

Lemma lstrip_by_none (p q : ascii → bool) (s : string) :
  (∀ c, q c = true → p c = false) → all_chars q s = true →
  PyStr.lstrip_by p s = s.
Proof.
  intros Hpq. destruct s as [| a s]; [done |].
  cbn [all_chars PyStr.lstrip_by]. intros [Ha _]%andb_true_iff.
  by rewrite (Hpq _ Ha).
Qed.

Lemma rstrip_by_none (p q : ascii → bool) (s : string) :
  (∀ c, q c = true → p c = false) → all_chars q s = true →
  PyStr.rstrip_by p s = s.
Proof.
  intros Hpq. induction s as [| a s IH]; [done |].
  cbn [all_chars PyStr.rstrip_by]. intros [Ha Hs]%andb_true_iff.
  rewrite (IH Hs), (Hpq _ Ha). by destruct s.
Qed.

Lemma map_chars_none (f : ascii → ascii) (q : ascii → bool) (s : string) :
  (∀ c, q c = true → f c = c) → all_chars q s = true →
  PyStr.map_chars f s = s.
Proof.
  intros Hf. induction s as [| a s IH]; [done |].
  cbn [all_chars PyStr.map_chars]. intros [Ha Hs]%andb_true_iff.
  by rewrite (Hf _ Ha), (IH Hs).
Qed.

Lemma endswith_occurs (c : ascii) (s : string) :
  PyStr.endswith (String c "") s = true → occurs c s = true.
Proof.
  induction s as [| a s IH]; [done |].
  cbn [PyStr.endswith]. rewrite occurs_cons.
  intros [He | He]%orb_true_iff.
  - apply String.eqb_eq in He. injection He as -> _.
    by rewrite Ascii.eqb_refl.
  - rewrite (IH He). apply orb_true_r.
Qed.

Lemma digit_of_pretty_N_char (m : N) :
  (m < 10)%N → PyFloat.digit_of (pretty_N_char m) = Some (Z.of_N m).
Proof.
  intros Hm.
  assert (m = 0 ∨ m = 1 ∨ m = 2 ∨ m = 3 ∨ m = 4 ∨ m = 5 ∨ m = 6 ∨ m = 7
          ∨ m = 8 ∨ m = 9)%N as Hcases by lia.
  repeat (destruct Hcases as [-> | Hcases]; [reflexivity |]).
  by subst.
Qed.

(** The decimal digits that [str] prints for a positive int scan back to
    the int. *)
Lemma scan_pretty_digits (x : N) :
  ∀ (s : string) (prev : bool) (acc cnt : Z),
    (0 < x)%N →
    all_chars is_digit s = true →
    ∃ (k : Z) (d : ascii) (rest : string),
      0 < k
      ∧ pretty_N_go x s = String d rest
      ∧ all_chars is_digit (String d rest) = true
      ∧ PyFloat.scan_digits prev acc cnt (pretty_N_go x s)
        = PyFloat.scan_digits true (acc * 10 ^ k + Z.of_N x) (cnt + k) s.
Proof.
  induction (N.lt_wf_0 x) as [x _ IH]. intros s prev acc cnt Hx Hs.
  rewrite pretty_N_go_step by done.
  pose proof (N.mod_lt x 10 ltac:(done)) as Hm.
  pose proof (digit_of_pretty_N_char _ Hm) as Hd.
  assert (all_chars is_digit (String (pretty_N_char (x `mod` 10)) s) = true)
    as Hs'.
  { cbn [all_chars]. rewrite Hs. unfold is_digit.
    rewrite bool_decide_eq_true_2; [done | by rewrite Hd]. }
  destruct (decide (x `div` 10 = 0)%N) as [H0 | H0].
  - rewrite H0, pretty_N_go_0. exists 1, (pretty_N_char (x `mod` 10)), s.
    split; [done |]. split; [done |]. split; [done |].
    cbn [PyFloat.scan_digits]. rewrite Hd. f_equal.
    pose proof (N.div_mod x 10 ltac:(done)) as Hx10. lia.
  - assert (x `div` 10 < x)%N as Hlt by (by apply N.div_lt).
    assert (0 < x `div` 10)%N as Hpos by (by apply N.neq_0_lt_0).
    destruct (IH _ Hlt (String (pretty_N_char (x `mod` 10)) s) prev acc cnt
                Hpos Hs')
      as (k & d & rest & Hk & Hshape & Hdigits & Hscan).
    exists (k + 1), d, rest.
    split; [lia |]. split; [done |]. split; [done |].
    rewrite Hscan. cbn [PyFloat.scan_digits]. rewrite Hd. f_equal; [| lia].
    rewrite Z.pow_add_r by lia.
    pose proof (N.div_mod x 10 ltac:(done)) as Hx10.
    rewrite N2Z.inj_div. change (Z.of_N 10) with 10.
    assert (Z.of_N x = 10 * (Z.of_N x `div` 10) + Z.of_N (x `mod` 10))
      as Hz.
    { rewrite N2Z.inj_mod. change (Z.of_N 10) with 10.
      apply Z.div_mod. done. }
    lia.
Qed.

(** [float(str(n))] for a positive int [n] is the double nearest to
    [n]. *)
Lemma of_string_pretty (p : positive) :
  ∃ text,
    pretty (Z.pos p) = text
    ∧ all_chars is_digit text = true
    ∧ PyFloat.of_string text
      = Ok (SF2Prim (binary_normalize prec emax (Z.pos p) 0 false)).
Proof.
  destruct (scan_pretty_digits (N.pos p) "" false 0 0)
    as (k & d & rest & Hk & Hshape & Hdigits & Hscan); [done | done |].
  exists (String d rest).
  assert (pretty (Z.pos p) = String d rest) as Htext.
  { unfold pretty, pretty_Z, pretty, pretty_positive, pretty, pretty_N.
    by rewrite decide_False. }
  split; [done |]. split; [done |].
  cbn [PyFloat.scan_digits] in Hscan. rewrite Hshape in Hscan.
  assert (∀ c, is_digit c = true → PyFloat.is_c_space c = false) as Hspace.
  { intros [[] [] [] [] [] [] [] []]; by vm_compute. }
  unfold PyFloat.of_string, PyStr.strip_by.
  rewrite (lstrip_by_none _ _ _ Hspace Hdigits),
    (rstrip_by_none _ _ _ Hspace Hdigits).
  pose proof Hdigits as [Hd _]%andb_true_iff.
  assert (PyFloat.scan_sign (String d rest) = (false, String d rest)) as ->.
  { cbn [PyFloat.scan_sign].
    destruct (Ascii.eqb_spec d "+") as [-> | _]; [done |].
    by destruct (Ascii.eqb_spec d "-") as [-> | _]. }
  assert (PyStr.lower (String d rest) = String d rest) as ->.
  { apply (map_chars_none _ is_digit); [| done].
    intros [[] [] [] [] [] [] [] []]; by vm_compute. }
  assert (∀ w, occurs d w = false → String.eqb (String d rest) w = false)
    as Hword.
  { intros w Hw. apply String.eqb_neq. intros <-.
    by rewrite occurs_cons, Ascii.eqb_refl in Hw. }
  assert (∀ w, all_chars (λ c, negb (is_digit c)) w = true →
               occurs d w = false) as Hletters.
  { intros w Hw. destruct (occurs d w) eqn:Ho; [| done].
    apply (all_chars_occurs _ _ _ Hw) in Ho. by rewrite Hd in Ho. }
  rewrite !Hword by (by apply Hletters). cbn [orb].
  unfold PyFloat.scan_number. rewrite Hscan.
  assert ((0 <? 0 + k) = true) as -> by (apply Z.ltb_lt; lia).
  cbn [PyFloat.scan_exponent mbind option_bind].
  replace (0 * 10 ^ k + Z.of_N (N.pos p)) with (Z.pos p) by (simpl; lia).
  unfold PyFloat.of_decimal. cbn [Z.leb Z.compare].
  by rewrite Z.pow_0_r, Z.mul_1_r.
Qed.

(** X18: the parsers print a number before they read it, and the round
    trip through [str] and [float] is exact: a positive int given for a
    duration comes back as that many seconds, whatever unit the field
    was in, and one given for a memory size is taken as bytes. *)
Theorem bare_numbers_are_seconds_and_bytes
    (repr : pyval → string) (n : Z) (f : float) :
  0 < n →
  PyFloat.of_int n = Ok f →
  parse_duration_to_seconds repr (PInt n) = Ok (PFloat f)
  ∧ parse_memory_to_mb repr (PInt n) = Ok (PFloat (f / 1048576)).
Proof.
  intros Hn Hf. destruct n as [| p |]; [lia | | lia].
  unfold PyFloat.of_int in Hf.
  destruct (2 ^ 1024 - 2 ^ 970 <=? Z.abs (Z.pos p)); [discriminate |].
  injection Hf as <-.
  destruct (of_string_pretty p) as (text & Htext & Hdigits & Hfloat).
  assert (∀ c, is_digit c = false → occurs c text = false) as Hnone.
  { intros c Hc. destruct (occurs c text) eqn:Ho; [| done].
    apply (all_chars_occurs _ _ _ Hdigits) in Ho. congruence. }
  assert (∀ c sub, is_digit c = false →
                   PyStr.contains (String c sub) text = false) as Hunit.
  { intros c sub Hc. apply not_contains. by apply Hnone. }
  split.
  - unfold parse_duration_to_seconds. cbn [Py.truthy str Z.eqb negb].
    rewrite Htext.
    assert (PyStr.lower text = text) as ->.
    { apply (map_chars_none _ is_digit); [| done].
      intros [[] [] [] [] [] [] [] []]; by vm_compute. }
    assert (PyStr.strip text = text) as ->.
    { assert (∀ c, is_digit c = true → PyStr.is_space c = false) as Hspace.
      { intros [[] [] [] [] [] [] [] []]; by vm_compute. }
      unfold PyStr.strip, PyStr.strip_by.
      by rewrite (lstrip_by_none _ _ _ Hspace Hdigits),
        (rstrip_by_none _ _ _ Hspace Hdigits). }
    assert (PyStr.endswith "n" text = false) as ->.
    { destruct (PyStr.endswith "n" text) eqn:He; [| done].
      apply endswith_occurs in He. by rewrite Hnone in He. }
    by rewrite !Hunit, Hfloat.
  - unfold parse_memory_to_mb. cbn [Py.truthy str Z.eqb negb].
    rewrite Htext.
    assert (PyStr.upper text = text) as ->.
    { apply (map_chars_none _ is_digit); [| done].
      intros [[] [] [] [] [] [] [] []]; by vm_compute. }
    by rewrite !Hunit, Hfloat.
Qed.

(** * Closed instances *)

Lemma extractor_short_circuit_witness :
  get_query_stats_from_api repr_unused localhost
    (always finished_reply) (PStr "unknown") = (∅, []).
Proof.
  apply (extractor_short_circuit repr_unused localhost
           (always finished_reply) (PStr "unknown")).
  right. reflexivity.
Defined.

(** The end-to-end example: five rows in three seconds of client time,
    3.1 seconds of server time. *)
Lemma runtime_from_one_source_witness :
  ∃ t trace,
    measure_query_execution repr_unused localhost (always finished_reply)
      100 103 five_rows "SELECT 1" (Some 1000) = (Ok t, trace)
    ∧ runtime_sec t = PFloat 3.1
    ∧ ∃ f, runtime_sec t = PFloat f.
Proof.
  eexists _, _. split; [vm_compute; reflexivity |].
  split; [vm_compute; reflexivity |].
  eapply (runtime_from_one_source repr_unused localhost (always finished_reply)
            100 103 five_rows "SELECT 1" (Some 1000)).
  vm_compute; reflexivity.
Defined.

Lemma memory_parser_units_witness :
  parse_memory_to_mb repr_unused (PStr "1.2gb") = Ok (PFloat (1.2 * 1024)).
Proof.
  apply (proj1 (memory_parser_units repr_unused) "1.2gb" 1.2%float).
  - discriminate.
  - vm_compute; reflexivity.
  - vm_compute; reflexivity.
Defined.

Lemma cpu_and_memory_never_zero_witness :
  ∃ t trace,
    measure_query_execution repr_unused localhost
      (always (Reply 200 (Ok (PDict bare_data))))
      100 103 five_rows "SELECT 1" (Some 1000) = (Ok t, trace)
    ∧ unmeasured_or_nonzero (cpu_seconds t)
    ∧ unmeasured_or_nonzero (peak_memory_mb t).
Proof.
  assert (∃ t trace,
            measure_query_execution repr_unused localhost
              (always (Reply 200 (Ok (PDict bare_data))))
              100 103 five_rows "SELECT 1" (Some 1000) = (Ok t, trace))
    as (t & trace & Ht) by (eexists _, _; vm_compute; reflexivity).
  exists t, trace. split; [exact Ht |].
  destruct (cpu_and_memory_never_zero repr_unused localhost
              (always (Reply 200 (Ok (PDict bare_data))))
              100 103 five_rows "SELECT 1" (Some 1000) t trace
              "q1.sql" 0%nat Ht) as (Hcpu & Hmem & _).
  split; assumption.
Defined.

Lemma query_id_never_null_witness :
  ∃ t trace,
    measure_query_execution repr_unused localhost (always finished_reply)
      100 103 (λ _, ExecuteFails "line 1:1: mismatched input")
      "SELEC 1" None = (Ok t, trace)
    ∧ query_id t ≠ PNone.
Proof.
  eexists _, _. split; [vm_compute; reflexivity |].
  eapply (query_id_never_null repr_unused localhost (always finished_reply)
            100 103 (λ _, ExecuteFails "line 1:1: mismatched input")
            "SELEC 1" None).
  vm_compute; reflexivity.
Defined.

Lemma endpoint_failure_is_soft_witness :
  (get_query_stats_from_api repr_unused localhost
     (always (Reply 401 (Raise (RequestException "Unauthorized"))))
     (PStr "20240101_000001_00001_abcde")).1 = ∅
  ∧ ∃ t trace,
      measure_query_execution repr_unused localhost
        (always (Reply 401 (Raise (RequestException "Unauthorized"))))
        100 103 five_rows "SELECT 1" (Some 1000) = (Ok t, trace)
      ∧ stats_source t = PStr "client-only".
Proof.
  pose proof (endpoint_failure_is_soft repr_unused localhost
                (always (Reply 401 (Raise (RequestException "Unauthorized"))))
                100 103 five_rows) as [Hextractor Hmeasurer].
  split.
  - apply Hextractor. simpl. lia.
  - destruct (Hmeasurer "SELECT 1" (Some 1000)) as (t & trace & Ht & _ & Hs & _).
    + simpl. lia.
    + simpl. lia.
    + eauto.
Defined.

(** The record takes 1000 from the second field although the first field
    is present, and not null, with the value 0. *)
Lemma first_present_value_not_taken :
  (get_query_stats_from_api repr_unused localhost
     (always zero_then_thousand_reply) (PStr "q")).1 !! "physical_input_rows"
  ≠ first_present_non_null input_row_fields zero_then_thousand
  ∧ (get_query_stats_from_api repr_unused localhost
       (always zero_then_thousand_reply) (PStr "q")).1 !! "physical_input_rows"
    = Some (PInt 1000)
  ∧ first_present_non_null input_row_fields zero_then_thousand
    = Some (PInt 0).
Proof.
  assert ((get_query_stats_from_api repr_unused localhost
             (always zero_then_thousand_reply) (PStr "q")).1
          !! "physical_input_rows" = Some (PInt 1000)) as H1
    by (vm_compute; reflexivity).
  assert (first_present_non_null input_row_fields zero_then_thousand
          = Some (PInt 0)) as H2 by (vm_compute; reflexivity).
  split; [| done]. rewrite H1, H2. discriminate.
Qed.

Lemma extractor_probes_first_true_value_witness :
  (get_query_stats_from_api repr_unused localhost
     (always zero_then_thousand_reply) (PStr "q")).1 !! "physical_input_rows"
  = Some (default (PInt 0) (first_truthy input_row_fields zero_then_thousand)).
Proof.
  destruct (extractor_probes_first_true_value repr_unused localhost
              (always zero_then_thousand_reply) (PStr "q")
              (<["queryStats" := PDict zero_then_thousand]> ∅))
    as (stats & Hstats & _ & _ & Hrows & _).
  - reflexivity.
  - vm_compute. discriminate.
  - vm_compute in Hstats. injection Hstats as <-. exact Hrows.
Defined.

Lemma source_tag_follows_record_witness :
  ∃ t trace,
    measure_query_execution repr_unused localhost
      (always (Reply 200 (Ok (PDict bare_data))))
      100 103 five_rows "SELECT 1" (Some 1000) = (Ok t, trace)
    ∧ stats_source t = PStr "REST API"
    ∧ (stats_source t = PStr "client-only" ↔ server_stats t = ∅).
Proof.
  pose proof (source_tag_follows_record repr_unused localhost
                (always (Reply 200 (Ok (PDict bare_data))))
                100 103 five_rows) as [Htag Hbare].
  destruct (Hbare "SELECT 1" (Some 1000) bare_data ∅)
    as (t & trace & Ht & _ & _ & _ & Hs & _).
  - reflexivity.
  - reflexivity.
  - reflexivity.
  - reflexivity.
  - unfold no_candidate_fields. simpl. repeat constructor.
  - reflexivity.
  - simpl. lia.
  - exists t, trace. split; [done |]. split; [done |].
    by apply (Htag "SELECT 1" (Some 1000) t trace).
Defined.

(** The end-to-end example of the specification: the trial of a query
    that returns 5 rows in 3.0 seconds of client time, with the
    statistics of [finished_reply]. *)
Example end_to_end :
  ∃ t,
    measure_query_execution repr_unused localhost (always finished_reply)
      100 103 five_rows "SELECT 1" (Some 5000)
    = (Ok t,
       [HttpGet "http://localhost:8080/v1/query/20240101_000001_00001_abcde"
          "admin" 10])
    ∧ runtime_sec t = PFloat 3.1
    ∧ client_runtime_sec t = PFloat 3
    ∧ cpu_seconds t = PFloat 2.5
    ∧ peak_memory_mb t = PFloat 128
    ∧ input_rows_processed t = PInt 1000
    ∧ rows_returned t = PInt 5
    ∧ throughput_input_rows_per_sec t = PFloat (1000 / 3.1)
    ∧ stats_source t = PStr "REST API".
Proof.
  eexists. split; [vm_compute; reflexivity |].
  repeat split; vm_compute; reflexivity.
Qed.

(** The value that the specification gives for ["456.78ms"] is not the
    one returned. *)
Lemma milliseconds_example_differs :
  parse_duration_to_seconds repr_unused (PStr "456.78ms")
  ≠ Ok (PFloat 0.45678).
Proof.
  intros H.
  apply (f_equal (λ r, match r with
                      | Ok (PFloat f) => (f =? 0.45678)%float
                      | _ => false
                      end)) in H.
  vm_compute in H. discriminate.
Qed.

(** ** Instances of the further properties *)

Lemma parsers_degrade_without_unit_witness :
  parse_duration_to_seconds repr_unused (PStr "2.00h") = Ok (PInt 0)
  ∧ parse_memory_to_mb repr_unused (PStr "2097152") = Ok (PFloat 2).
Proof.
  destruct (parsers_degrade_without_unit repr_unused "2.00h") as [Hd _].
  destruct (parsers_degrade_without_unit repr_unused "2097152") as [_ Hm].
  split.
  - rewrite Hd; vm_compute; reflexivity.
  - rewrite Hm; vm_compute; reflexivity.
Defined.

Lemma extractor_record_keys_witness :
  dom (get_query_stats_from_api repr_unused localhost
         (always finished_reply) (PStr "q")).1 = record_keys
  ∧ (get_query_stats_from_api repr_unused localhost
       (always finished_reply) (PStr "q")).1 !! "state"
    = Some (PStr "FINISHED").
Proof.
  destruct (extractor_record_keys repr_unused localhost
              (always finished_reply) (PStr "q"))
    as (Hdom & _ & _ & data & Hreply & Hstate).
  - vm_compute. discriminate.
  - split; [exact Hdom |].
    injection Hreply as <-. exact Hstate.
Defined.

Lemma extractor_parses_raw_strings_witness :
  ∃ cpu cpu_sec,
    (get_query_stats_from_api repr_unused localhost
       (always finished_reply) (PStr "q")).1 !! "cpu_time_str" = Some cpu
    ∧ (get_query_stats_from_api repr_unused localhost
         (always finished_reply) (PStr "q")).1 !! "cpu_time_sec" = Some cpu_sec
    ∧ parse_duration_to_seconds repr_unused cpu = Ok cpu_sec.
Proof.
  destruct (extractor_parses_raw_strings repr_unused localhost
              (always finished_reply) (PStr "q"))
    as (cpu & cpu_sec & _ & _ & _ & _ & Hstr & Hsec & Hparse & _).
  - vm_compute. discriminate.
  - by exists cpu, cpu_sec.
Defined.

Lemma extractor_rejects_non_objects_witness :
  get_query_stats_from_api repr_unused localhost (always array_reply)
    (PStr "q")
  = (∅, [HttpGet "http://localhost:8080/v1/query/q" "admin" 10;
         Print (WarnParsing AttributeError)]).
Proof.
  apply (extractor_rejects_non_objects repr_unused localhost
           (always array_reply) (PStr "q") (PList [])).
  - reflexivity.
  - reflexivity.
  - left. exact I.
Defined.

Lemma extractor_drops_record_on_bad_duration_witness :
  (get_query_stats_from_api repr_unused localhost
     (always (Reply 200 (Ok (PDict minutes_data)))) (PStr "q")).1 = ∅.
Proof.
  apply (extractor_drops_record_on_bad_duration repr_unused localhost
           (always (Reply 200 (Ok (PDict minutes_data)))) (PStr "q")
           minutes_data minutes_stats).
  - reflexivity.
  - vm_compute; reflexivity.
  - left. eexists. vm_compute; reflexivity.
Defined.

Lemma throughput_never_divides_by_zero_witness :
  throughput (PInt 1000) (PFloat 0) = Ok (PInt 0).
Proof.
  apply (proj2 (throughput_never_divides_by_zero (PInt 1000) 0%float)).
  - vm_compute; reflexivity.
  - vm_compute. discriminate.
Defined.

Lemma processed_rows_from_one_source_witness :
  ∃ t trace,
    measure_query_execution repr_unused localhost (always finished_reply)
      100 103 five_rows "SELECT 1" (Some 5000) = (Ok t, trace)
    ∧ (throughput_input_rows_per_sec t = PInt 0
       ∨ ∃ f, throughput_input_rows_per_sec t = PFloat f).
Proof.
  assert (∃ t trace,
            measure_query_execution repr_unused localhost
              (always finished_reply)
              100 103 five_rows "SELECT 1" (Some 5000) = (Ok t, trace))
    as (t & trace & Ht) by (eexists _, _; vm_compute; reflexivity).
  exists t, trace. split; [exact Ht |].
  exact (proj2 (processed_rows_from_one_source repr_unused localhost
                  (always finished_reply) 100 103 five_rows "SELECT 1"
                  (Some 5000) t trace Ht)).
Defined.

Lemma execution_outcome_recorded_witness :
  ∃ t trace,
    measure_query_execution repr_unused localhost (always finished_reply)
      100 101 (λ _, ExecuteFails "Query exceeded the time limit")
      "SELECT 1" (Some 5000) = (Ok t, trace)
    ∧ status t = PStr "ERROR: Query exceeded the time limit"
    ∧ trace = [].
Proof.
  assert (∃ t trace,
            measure_query_execution repr_unused localhost
              (always finished_reply)
              100 101 (λ _, ExecuteFails "Query exceeded the time limit")
              "SELECT 1" (Some 5000) = (Ok t, trace))
    as (t & trace & Ht) by (eexists _, _; vm_compute; reflexivity).
  exists t, trace. split; [exact Ht |].
  pose proof (execution_outcome_recorded repr_unused localhost
                (always finished_reply) 100 101
                (λ _, ExecuteFails "Query exceeded the time limit")
                "SELECT 1" (Some 5000) t trace Ht) as H.
  cbn beta iota in H. destruct H as (Hstatus & _ & Htrace & _).
  split; [exact Hstatus | exact Htrace].
Defined.


Lemma measurer_produces_trial_witness :
  ∃ t trace,
    measure_query_execution repr_unused localhost (always finished_reply)
      100 103 five_rows "SELECT 1" (Some 5000) = (Ok t, trace).
Proof.
  apply (measurer_produces_trial repr_unused localhost (always finished_reply)
           100 103 five_rows "SELECT 1" (Some 5000)).
  - simpl. lia.
  - intros v Hv. vm_compute in Hv. injection Hv as <-.
    unfold row_count. lia.
Defined.

Lemma one_csv_row_per_iteration_witness :
  ∃ trials,
    produce repr_unused localhost third_fails "SELECT 1" (Some 5000)
      (seq 0 ITERATIONS) trials
    ∧ csv_rows
        (measurement_runs repr_unused localhost third_fails "q1.sql"
           "SELECT 1" (Some 5000))
      = zip_with (csv_row "q1.sql") (seq 0 ITERATIONS) trials.
Proof.
  assert (∃ trials,
            produce repr_unused localhost third_fails "SELECT 1" (Some 5000)
              (seq 0 ITERATIONS) trials) as (trials & Htrials).
  { eexists. unfold produce. cbn [seq ITERATIONS].
    repeat (econstructor; [eexists; vm_compute; reflexivity |]).
    econstructor. }
  exists trials. split; [exact Htrials |].
  exact (proj1 (one_csv_row_per_iteration repr_unused localhost third_fails
                  "q1.sql" "SELECT 1" (Some 5000) trials Htrials)).
Defined.


Lemma rows_survive_a_crash_witness :
  ∃ trials,
    produce repr_unused localhost fourth_crashes "SELECT 1" (Some 5000)
      (seq 0 3) trials
    ∧ csv_rows
        (measurement_runs repr_unused localhost fourth_crashes "q1.sql"
           "SELECT 1" (Some 5000))
      = zip_with (csv_row "q1.sql") (seq 0 3) trials
    ∧ outcome
        (measurement_runs repr_unused localhost fourth_crashes "q1.sql"
           "SELECT 1" (Some 5000))
      = Raise TypeError.
Proof.
  assert (∃ trials,
            produce repr_unused localhost fourth_crashes "SELECT 1"
              (Some 5000) (seq 0 3) trials) as (trials & Htrials).
  { eexists. unfold produce. cbn [seq].
    repeat (econstructor; [eexists; vm_compute; reflexivity |]).
    econstructor. }
  exists trials. split; [exact Htrials |].
  apply (rows_survive_a_crash repr_unused localhost fourth_crashes "q1.sql"
           "SELECT 1" (Some 5000) 3%nat trials TypeError).
  - unfold ITERATIONS. lia.
  - exact Htrials.
  - vm_compute; reflexivity.
Defined.

(** A CPU time of 2500 milliseconds, given as a number, is read as 2500
    seconds. *)
Lemma bare_numbers_are_seconds_and_bytes_witness :
  parse_duration_to_seconds repr_unused (PInt 2500) = Ok (PFloat 2500)
  ∧ parse_memory_to_mb repr_unused (PInt 2500)
    = Ok (PFloat (2500 / 1048576)).
Proof.
  apply (bare_numbers_are_seconds_and_bytes repr_unused 2500 2500%float).
  - lia.
  - vm_compute; reflexivity.
Defined.
